(** * A shallow embedding of the JavaScript exercises of this repository

    The repository is a set of independent browser scripts: a clock widget,
    two script loaders (callback form and promise form), a weather widget and
    the [Student] / [CS_Student] class exercise.  Each script is embedded
    below in a module of its own, over a small common model of the
    JavaScript values and string operations the scripts use. *)

From Stdlib Require Import ZArith Ascii String DecimalString.
From stdpp Require Import base list strings gmap.

Local Open Scope string_scope.
Local Open Scope Z_scope.
Local Set Warnings "-register-all".

(** ** JavaScript values and the string operations used by the scripts *)

Module JS.

(** The values the scripts handle.  Numbers are the integers the scripts
    meet (clock fields, roll numbers); strings are byte strings; arrays and
    plain objects appear in parsed JSON, an object as the list of its
    properties, each name once. *)
Inductive value :=
| VUndefined
| VNull
| VBool (b : bool)
| VNum (n : Z)
| VStr (s : string)
| VArray (items : list value)
| VObject (props : list (string * value)).

(** [Number.prototype.toString] on an integer: decimal digits, with a
    minus sign for negative numbers. *)
Definition number_to_string (n : Z) : string :=
  NilZero.string_of_int (Z.to_int n).

(** The [ToString] conversion applied by [+] with a string operand and by
    template literals.  An array joins its items with commas, [undefined]
    and [null] items giving the empty text. *)
Fixpoint to_string (v : value) : string :=
  match v with
  | VUndefined => "undefined"
  | VNull => "null"
  | VBool true => "true"
  | VBool false => "false"
  | VNum n => number_to_string n
  | VStr s => s
  | VArray items =>
      String.concat ","
        (List.map (fun x => match x with
                            | VUndefined | VNull => ""
                            | _ => to_string x
                            end) items)
  | VObject _ => "[object Object]"
  end.

(** [ToBoolean]: what [c ? a : b] and [a || b] test. *)
Definition truthy (v : value) : bool :=
  match v with
  | VUndefined | VNull => false
  | VBool b => b
  | VNum n => negb (n =? 0)
  | VStr s => negb (String.eqb s "")
  | VArray _ | VObject _ => true
  end.

(** [a || b] *)
Definition or_else (a b : value) : value := if truthy a then a else b.

(** [v == undefined]: loose equality holds for [undefined] and [null] only. *)
Definition loosely_undefined (v : value) : bool :=
  match v with
  | VUndefined | VNull => true
  | _ => false
  end.

Definition is_undefined (v : value) : bool :=
  match v with VUndefined => true | _ => false end.

(** [a % b] on integers takes the sign of the dividend. *)
Definition js_rem (a b : Z) : Z := Z.rem a b.

(** The filler of [padStart]: [k] characters read cyclically from [pad]. *)
Fixpoint fill_cycle (k : nat) (pad rest : string) : string :=
  match k with
  | O => ""
  | S k' =>
      match rest with
      | String c r => String c (fill_cycle k' pad r)
      | EmptyString =>
          match pad with
          | String c r => String c (fill_cycle k' pad r)
          | EmptyString => ""
          end
      end
  end.

(** [s.padStart(n, pad)] *)
Definition padStart (n : nat) (pad s : string) : string :=
  if (n <=? String.length s)%nat then s
  else fill_cycle (n - String.length s) pad pad +:+ s.

(** [String.prototype.toUpperCase], on the ASCII letters. *)
Definition upper_ascii (c : ascii) : ascii :=
  let n := nat_of_ascii c in
  if ((97 <=? n) && (n <=? 122))%nat then ascii_of_nat (n - 32) else c.

Fixpoint toUpperCase (s : string) : string :=
  match s with
  | EmptyString => EmptyString
  | String c r => String (upper_ascii c) (toUpperCase r)
  end.

(** An exception object: [name] and [message] of an [Error]. *)
Record error := { ename : string; message : string }.

(** [Error.prototype.toString] *)
Definition error_to_string (e : error) : string :=
  if String.eqb (ename e) "" then message e
  else if String.eqb (message e) "" then ename e
  else ename e +:+ ": " +:+ message e.

(** [new Error(msg)] *)
Definition Error (msg : string) : error := {| ename := "Error"; message := msg |}.

(** The [TypeError] raised when a property of [undefined] or [null] is
    read or written (wording of V8). *)
Definition TypeError_get (of_what prop : string) : error :=
  {| ename := "TypeError";
     message := "Cannot read properties of " +:+ of_what
                +:+ " (reading '" +:+ prop +:+ "')" |}.

Definition TypeError_set (of_what prop : string) : error :=
  {| ename := "TypeError";
     message := "Cannot set properties of " +:+ of_what
                +:+ " (setting '" +:+ prop +:+ "')" |}.

(** How a block of statements over a state [S] ends: normally, or by a
    thrown exception; the writes made before the throw stay. *)
Inductive completion (S : Type) :=
| Normal (s : S)
| Throw (e : error) (s : S).
Arguments Normal {S} s.
Arguments Throw {S} e s.

Definition state_of {S} (c : completion S) : S :=
  match c with Normal s | Throw _ s => s end.

Definition and_then {S} (c : completion S) (k : S -> completion S) : completion S :=
  match c with
  | Normal s => k s
  | Throw e s => Throw e s
  end.

(** How a promise settles. *)
Inductive settled (A E : Type) :=
| Fulfilled (a : A)
| Rejected (e : E).
Arguments Fulfilled {A E} a.
Arguments Rejected {A E} e.

(** A [Date]: the local calendar fields of an instant.  [month] is the
    calendar month, 1 for January to 12 for December. *)
Record Date := {
  year : Z;
  month : Z;
  day : Z;
  hour : Z;
  minute : Z;
  second : Z
}.

Definition getFullYear (d : Date) : Z := year d.
(** [getMonth] counts months from 0. *)
Definition getMonth (d : Date) : Z := month d - 1.
Definition getDate (d : Date) : Z := day d.
Definition getHours (d : Date) : Z := hour d.
Definition getMinutes (d : Date) : Z := minute d.
Definition getSeconds (d : Date) : Z := second d.

End JS.

Notation "c >>> k" := (JS.and_then c k) (at level 61, left associativity).

(** ** The clock (interval callback) *)

Module Clock.
Import JS.

(** The elements of class ["time"], in document order, by their
    [innerHTML]. *)
Definition page := list string.

(** [document.getElementsByClassName("time")[i].innerHTML = s]: the
    collection yields [undefined] past its end, and the write throws. *)
Definition set_innerHTML (i : nat) (s : string) (p : page) : completion page :=
  match p !! i with
  | Some _ => Normal (<[i:=s]> p)
  | None => Throw (TypeError_set "undefined" "innerHTML") p
  end.

(** [let period = hours >= 12 ? 'PM' : 'AM'] *)
Definition period (a : Date) : string :=
  if getHours a >=? 12 then "PM" else "AM".

(** [x < 10 ? '0' + x : x], for a number [x]: a string below 10, the
    number itself from 10 on. *)
Definition lead_zero (x : Z) : value :=
  if x <? 10 then VStr ("0" +:+ number_to_string x) else VNum x.

(** The value of [hours] after lines 17, 18 and 21. *)
Definition hours12 (a : Date) : value :=
  let hours := js_rem (getHours a) 12 in
  let hours := if truthy (VNum hours) then hours else 12 in
  lead_zero hours.

Definition minutes2 (a : Date) : value := lead_zero (getMinutes a).
Definition seconds2 (a : Date) : value := lead_zero (getSeconds a).

(** The body of the callback, run at the sampled time [a]. *)
Definition tick (a : Date) (p : page) : completion page :=
  set_innerHTML 0 (to_string (hours12 a) +:+ ":") p
  >>> set_innerHTML 1 (to_string (minutes2 a) +:+ ":")
  >>> set_innerHTML 2 (to_string (seconds2 a) +:+ "  ")
  >>> set_innerHTML 3 (" " +:+ period a).

(** The hour as the specification words it: [(T.hours % 12) || 12],
    padded to two digits with a leading zero. *)
Definition spec_hour (a : Date) : string :=
  padStart 2 "0"
    (to_string (or_else (VNum (js_rem (getHours a) 12)) (VNum 12))).

(** The four texts the callback writes, in the order of the elements. *)
Definition texts (a : Date) : list string :=
  [to_string (hours12 a) +:+ ":"; to_string (minutes2 a) +:+ ":";
   to_string (seconds2 a) +:+ "  "; " " +:+ period a].

End Clock.

(** ** The [Student] / [CS_Student] classes *)

Module Students.
Import JS.

(** An instance is the map of its own properties; a property that is
    absent reads as [undefined]. *)
Abbreviation object := (gmap string value).

Definition get (o : object) (k : string) : value := default VUndefined (o !! k).

(** What a method runs on: the receiver [this] and the console, as the
    list of the texts logged so far, oldest first. *)
Record world := { this : object; console : list string }.

(** [this.k = v] *)
Definition set (k : string) (v : value) (w : world) : world :=
  {| this := <[k:=v]> (this w); console := console w |}.

(** [console.log(s)] *)
Definition log (s : string) (w : world) : world :=
  {| this := this w; console := console w ++ [s] |}.

(** The escape [\n]. *)
Definition nl : string := String (ascii_of_nat 10) "".

Inductive class := Student | CS_Student.

(** [Student.constructor]; [CS_Student] declares none and inherits it.
    [out] is the console before the call. *)
Definition constructor (name program : string) (out : list string) : world :=
  let w := {| this := ∅; console := out |} in
  let w := set "name" (VStr name) w in
  let w := set "name" (VStr (toUpperCase name)) w in
  let w := set "program" (VStr program) w in
  let w := set "program" (VStr (toUpperCase program)) w in
  log (to_string (get (this w) "name")
       +:+ " Your Form is in panding please submit it first") w.

(** [Student.submit], called at the instant [now]. *)
Definition submit (now : Date) (w : world) : world :=
  let w := log (to_string (get (this w) "name")
                +:+ " Your Form is subbmitted For Prgram "
                +:+ to_string (get (this w) "program")) w in
  let w := set "hours" (VStr (padStart 2 "0" (number_to_string (getHours now)))) w in
  let w := set "minutes" (VStr (padStart 2 "0" (number_to_string (getMinutes now)))) w in
  let w := set "seconds" (VStr (padStart 2 "0" (number_to_string (getSeconds now)))) w in
  set "date" (VStr (number_to_string (getDate now) +:+ "/"
                    +:+ number_to_string (getMonth now) +:+ "/"
                    +:+ number_to_string (getFullYear now))) w.

(** [Student.cancel], called at the instant [x]. *)
Definition cancel (x : Date) (w : world) : world :=
  let w := log (to_string (get (this w) "name")
                +:+ " Your Form was Cancelled " +:+ " on  "
                +:+ number_to_string (getDate x) +:+ "/"
                +:+ number_to_string (getMonth x) +:+ "/"
                +:+ number_to_string (getFullYear x)
                +:+ " For Program " +:+ to_string (get (this w) "program")) w in
  let w := set "name" VUndefined w in
  set "program" VUndefined w.

(** [Student.info] *)
Definition Student_info (w : world) : world :=
  if loosely_undefined (get (this w) "name") then
    log "Student not exits!" w
  else
    let w := log (nl +:+ "Student Informations:") w in
    log ("Name: " +:+ to_string (get (this w) "name")
         +:+ nl +:+ "Program: " +:+ to_string (get (this w) "program")
         +:+ nl +:+ "Date: " +:+ to_string (get (this w) "hours")
         +:+ ":" +:+ to_string (get (this w) "minutes")
         +:+ ":" +:+ to_string (get (this w) "seconds")
         +:+ " on " +:+ to_string (get (this w) "date")) w.

(** [CS_Student.add] *)
Definition add (rnumber nice : value) (w : world) : world :=
  let w := set "rnumber" rnumber w in
  set "nice" nice w.

(** [CS_Student.info]; [super.info()] is [Student_info] on the same
    receiver. *)
Definition CS_Student_info (w : world) : world :=
  if loosely_undefined (get (this w) "name") then
    log "Student not exits!" w
  else
    let w := Student_info w in
    log (nl +:+ "Roll Number: " +:+ to_string (get (this w) "rnumber")
         +:+ nl +:+ "NICE: " +:+ to_string (get (this w) "nice")) w.

(** [obj.info()] dispatches on the class of the receiver. *)
Definition info (c : class) (w : world) : world :=
  match c with
  | Student => Student_info w
  | CS_Student => CS_Student_info w
  end.

(** A method call on an instance, with the arguments and the clock
    reading it consumes. *)
Inductive call :=
| Submit (now : Date)
| Cancel (now : Date)
| Info
| Add (rnumber nice : value).

(** [obj.m(...)]: [add] exists on [CS_Student] only; calling it on a plain
    [Student] throws. *)
Definition invoke (c : class) (m : call) (w : world) : completion world :=
  match m with
  | Submit now => Normal (submit now w)
  | Cancel now => Normal (cancel now w)
  | Info => Normal (info c w)
  | Add rnumber nice =>
      match c with
      | CS_Student => Normal (add rnumber nice w)
      | Student =>
          Throw {| ename := "TypeError"; message := "add is not a function" |} w
      end
  end.

(** A script that calls the methods [ms] one after the other. *)
Fixpoint run (c : class) (ms : list call) (w : world) : completion world :=
  match ms with
  | [] => Normal w
  | m :: ms' => invoke c m w >>> run c ms'
  end.

(** A property is defined when it does not read as [undefined]. *)
Definition is_defined (o : object) (k : string) : bool :=
  negb (is_undefined (get o k)).

Definition timestamp_fields : list string := ["hours"; "minutes"; "seconds"; "date"].

Definition is_submit (m : call) : bool :=
  match m with Submit _ => true | _ => false end.

(** The pieces of [s] between the occurrences of the character [sep]. *)
Fixpoint split_on (sep : ascii) (s : string) : list string :=
  match s with
  | EmptyString => [""]
  | String c r =>
      if Ascii.eqb c sep then "" :: split_on sep r
      else match split_on sep r with
           | [] => [String c ""]
           | p :: ps => String c p :: ps
           end
  end.

(** Whether the character [sep] occurs in [s]. *)
Fixpoint has_char (sep : ascii) (s : string) : bool :=
  match s with
  | EmptyString => false
  | String c r => Ascii.eqb c sep || has_char sep r
  end.

(** The month of a [d/m/yyyy] text. *)
Definition month_component (s : string) : option string :=
  split_on "/"%char s !! 1%nat.

(** The script of the source file: lines 63 and 64. *)
Definition rizwan (out : list string) : world :=
  add (VNum 30) (VNum 5429332333552)
      (constructor "Rizwan Ahmed " "Inofrmation Tehcnology" out).

Definition is_cancel (m : call) : bool :=
  match m with Cancel _ => true | _ => false end.

End Students.

(** ** The script loader, callback form *)

Module CallbackLoader.
Import JS.

(** How the browser ends the load of an injected script: it fires [load]
    or it fires [error], one event for one script. *)
Inductive outcome := Loaded | Failed.

Section Loader.
(** What the callback acts on. *)
Context {W : Type}.

(** A [<script>] element with its two handlers. *)
Record script := {
  src : string;
  onload : W -> W;
  onerror : W -> W
}.

(** The document: the children of [<head>] and the state the callbacks
    act on. *)
Record browser := { head : list script; state : W }.

(** [func(src, load)] *)
Definition func (src : string) (load : value -> string -> W -> W)
    (b : browser) : browser :=
  let scrt := {| src := src;
                 onload := load (VBool false) src;
                 onerror := load (VBool true) src |} in
  {| head := head b ++ [scrt]; state := state b |}.

(** The browser settles the load of the [i]-th child of [<head>]. *)
Definition settle (i : nat) (o : outcome) (b : browser) : browser :=
  match head b !! i with
  | None => b
  | Some scrt =>
      {| head := head b;
         state := match o with
                  | Loaded => onload scrt (state b)
                  | Failed => onerror scrt (state b)
                  end |}
  end.
End Loader.
Arguments script : clear implicits.
Arguments browser : clear implicits.

(** The flag the loader passes for each way a load can end. *)
Definition flag_of (o : outcome) : value :=
  match o with
  | Loaded => VBool false
  | Failed => VBool true
  end.

(** [success(error, src)], acting on the console. *)
Definition success (error : value) (src : string) (out : list string) : list string :=
  if truthy error then out ++ ["Error"] ++ [src]
  else out ++ ["Script Loaded"] ++ [src].

(** A callback that only records the arguments of each of its
    invocations. *)
Definition recorder (error : value) (src : string)
    (calls : list (value * string)) : list (value * string) :=
  calls ++ [(error, src)].

Definition bootstrap_url : string :=
  "https://cdn.jsdelivr.net/npm/bootstrap@5.3.3/dist/js/bootstrap.bundle.min.js".

(** The script of the source file: lines 24 to 27, on an empty [<head>]. *)
Definition main (out : list string) : browser (list string) :=
  func bootstrap_url success {| head := []; state := out |}.

End CallbackLoader.

(** ** The script loader, promise form, and its retry chain *)

Module PromiseLoader.
Import JS.

Inductive outcome := Loaded | Failed.

(** What a promise chain does to the page, step by step: it injects a
    script and waits for the browser to settle its load, it logs, it sets
    a timer, or it is settled with a result. *)
Inductive prog (A : Type) :=
| Ret (a : A)
| Inject (src : string) (k : outcome -> prog A)
| Log (s : string) (k : prog A)
| SetTimeout (ms : Z) (k : prog A).
Arguments Ret {A} a.
Arguments Inject {A} src k.
Arguments Log {A} s k.
Arguments SetTimeout {A} ms k.

Fixpoint bind {A B} (p : prog A) (f : A -> prog B) : prog B :=
  match p with
  | Ret a => f a
  | Inject src k => Inject src (fun o => bind (k o) f)
  | Log s k => Log s (bind k f)
  | SetTimeout ms k => SetTimeout ms (bind k f)
  end.

(** A promise: the steps that lead to its settlement. *)
Abbreviation promise := (prog (settled value value)).

(** [p.then(f)]: a promise returned by [f] is adopted. *)
Definition then_ (p : promise) (f : value -> promise) : promise :=
  bind p (fun r => match r with
                   | Fulfilled v => f v
                   | Rejected e => Ret (Rejected e)
                   end).

(** [p.catch(f)] *)
Definition catch (p : promise) (f : value -> promise) : promise :=
  bind p (fun r => match r with
                   | Fulfilled v => Ret (Fulfilled v)
                   | Rejected e => f e
                   end).

(** [func(src)]: the promise settled by the handlers of the injected
    script. *)
Definition func (src : string) : promise :=
  Inject src (fun o => match o with
                       | Failed => Ret (Rejected (VStr "Rejected"))
                       | Loaded => Ret (Fulfilled (VStr "resolve"))
                       end).

Definition tailwind_url : string := "https://cdn.jsdelivr.net/npm/@tailwindcss/browser@4".

(** The handlers of the chain; a handler without [return] fulfils with
    [undefined]. *)
Definition log_value (value : value) : promise :=
  Log ("this is value of resolve which is  " +:+ to_string value)
      (Ret (Fulfilled VUndefined)).

Definition log_error_then (error : value) (next : promise) : promise :=
  Log ("this is value of error which is  " +:+ to_string error) next.

(** [let p = func(...).then(...).catch(...)], lines 15 to 29. *)
Definition p : promise :=
  catch (then_ (func tailwind_url) log_value)
    (fun error =>
       log_error_then error
         (catch (then_ (func tailwind_url) log_value)
            (fun error => log_error_then error (func tailwind_url)))).

(** What can be observed of a run. *)
Inductive event :=
| Injected (src : string)
| Logged (s : string)
| Waited (ms : Z).

(** Run a chain; [env n] is how the browser settles the load of the
    [n]-th script injected. *)
Fixpoint run {A} (pr : prog A) (env : nat -> outcome) (n : nat) : list event * A :=
  match pr with
  | Ret a => ([], a)
  | Inject src k =>
      let '(t, a) := run (k (env n)) env (S n) in (Injected src :: t, a)
  | Log s k => let '(t, a) := run k env n in (Logged s :: t, a)
  | SetTimeout ms k => let '(t, a) := run k env n in (Waited ms :: t, a)
  end.

(** The load attempts of a run: the URLs injected, in order. *)
Definition attempts (t : list event) : list string :=
  omap (fun e => match e with Injected src => Some src | _ => None end) t.

Definition is_wait (e : event) : bool :=
  match e with Waited _ => true | _ => false end.

(** The number of attempts that fail before the first that loads, among
    the first [fuel] attempts. *)
Fixpoint failures_before_load (env : nat -> outcome) (n fuel : nat) : nat :=
  match fuel with
  | O => O
  | S fuel' =>
      match env n with
      | Loaded => O
      | Failed => S (failures_before_load env (S n) fuel')
      end
  end.

(** The texts a run logs, in order. *)
Definition logs (t : list event) : list string :=
  omap (fun e => match e with Logged s => Some s | _ => None end) t.

End PromiseLoader.

(** ** The weather widget *)

Module Weather.
Import JS.

(** The page, by the properties of the elements the script looks up (all
    of them present), and the console, by the values logged. *)
Record page := {
  userinput_value : string;
  city_innerHTML : string;
  citytemp_innerHTML : string;
  wind_innerHTML : string;
  des_innerHTML : string;
  cantainer_display : string;
  fetching_display : string;
  fetching_innerHTML : string;
  console : list value
}.

Definition set_city (s : string) (p : page) : page :=
  {| userinput_value := userinput_value p; city_innerHTML := s;
     citytemp_innerHTML := citytemp_innerHTML p; wind_innerHTML := wind_innerHTML p;
     des_innerHTML := des_innerHTML p; cantainer_display := cantainer_display p;
     fetching_display := fetching_display p; fetching_innerHTML := fetching_innerHTML p;
     console := console p |}.

Definition set_citytemp (s : string) (p : page) : page :=
  {| userinput_value := userinput_value p; city_innerHTML := city_innerHTML p;
     citytemp_innerHTML := s; wind_innerHTML := wind_innerHTML p;
     des_innerHTML := des_innerHTML p; cantainer_display := cantainer_display p;
     fetching_display := fetching_display p; fetching_innerHTML := fetching_innerHTML p;
     console := console p |}.

Definition set_wind (s : string) (p : page) : page :=
  {| userinput_value := userinput_value p; city_innerHTML := city_innerHTML p;
     citytemp_innerHTML := citytemp_innerHTML p; wind_innerHTML := s;
     des_innerHTML := des_innerHTML p; cantainer_display := cantainer_display p;
     fetching_display := fetching_display p; fetching_innerHTML := fetching_innerHTML p;
     console := console p |}.

Definition set_des (s : string) (p : page) : page :=
  {| userinput_value := userinput_value p; city_innerHTML := city_innerHTML p;
     citytemp_innerHTML := citytemp_innerHTML p; wind_innerHTML := wind_innerHTML p;
     des_innerHTML := s; cantainer_display := cantainer_display p;
     fetching_display := fetching_display p; fetching_innerHTML := fetching_innerHTML p;
     console := console p |}.

Definition set_cantainer_display (s : string) (p : page) : page :=
  {| userinput_value := userinput_value p; city_innerHTML := city_innerHTML p;
     citytemp_innerHTML := citytemp_innerHTML p; wind_innerHTML := wind_innerHTML p;
     des_innerHTML := des_innerHTML p; cantainer_display := s;
     fetching_display := fetching_display p; fetching_innerHTML := fetching_innerHTML p;
     console := console p |}.

Definition set_fetching_display (s : string) (p : page) : page :=
  {| userinput_value := userinput_value p; city_innerHTML := city_innerHTML p;
     citytemp_innerHTML := citytemp_innerHTML p; wind_innerHTML := wind_innerHTML p;
     des_innerHTML := des_innerHTML p; cantainer_display := cantainer_display p;
     fetching_display := s; fetching_innerHTML := fetching_innerHTML p;
     console := console p |}.

Definition set_fetching_innerHTML (s : string) (p : page) : page :=
  {| userinput_value := userinput_value p; city_innerHTML := city_innerHTML p;
     citytemp_innerHTML := citytemp_innerHTML p; wind_innerHTML := wind_innerHTML p;
     des_innerHTML := des_innerHTML p; cantainer_display := cantainer_display p;
     fetching_display := fetching_display p; fetching_innerHTML := s;
     console := console p |}.

Definition log (v : value) (p : page) : page :=
  {| userinput_value := userinput_value p; city_innerHTML := city_innerHTML p;
     citytemp_innerHTML := citytemp_innerHTML p; wind_innerHTML := wind_innerHTML p;
     des_innerHTML := des_innerHTML p; cantainer_display := cantainer_display p;
     fetching_display := fetching_display p; fetching_innerHTML := fetching_innerHTML p;
     console := console p ++ [v] |}.

(** The text an [innerHTML] assignment stores: [null] gives the empty
    text, any other value its [ToString]. *)
Definition html_of (v : value) : string :=
  match v with
  | VNull => ""
  | _ => to_string v
  end.

(** [v.k], for a name [k] that is no built-in property: it throws on
    [undefined] and [null], reads the property of an object, and is
    [undefined] on every other value. *)
Fixpoint lookup_prop (k : string) (props : list (string * value)) : value :=
  match props with
  | [] => VUndefined
  | (k', v) :: rest => if String.eqb k' k then v else lookup_prop k rest
  end.

Definition get_prop (v : value) (k : string) : settled value error :=
  match v with
  | VUndefined => Rejected (TypeError_get "undefined" k)
  | VNull => Rejected (TypeError_get "null" k)
  | VObject props => Fulfilled (lookup_prop k props)
  | _ => Fulfilled VUndefined
  end.

(** [v.k] where the read does not throw. *)
Definition prop_of (v : value) (k : string) : value :=
  match get_prop v k with
  | Fulfilled x => x
  | Rejected _ => VUndefined
  end.

Definition nullish (v : value) : bool :=
  match v with
  | VUndefined | VNull => true
  | _ => false
  end.

(** An HTTP response: its status, and what [json()] settles with. *)
Record response := {
  status : Z;
  json : settled value error
}.

(** [response.ok]: the status is in the range 200 to 299. *)
Definition ok (r : response) : bool := (200 <=? status r) && (status r <=? 299).

(** How [fetch] settles: with a response, whatever its status, or with a
    network failure. *)
Abbreviation fetched := (settled response error).

(** A promise whose handlers act on the page: from the page when it
    settles, the page its handlers leave and its settlement. *)
Definition task (A : Type) : Type := page -> page * settled A error.

Definition then_ {A B} (t : task A) (f : A -> task B) : task B :=
  fun pg =>
    match t pg with
    | (pg', Fulfilled a) => f a pg'
    | (pg', Rejected e) => (pg', Rejected e)
    end.

Definition catch {A} (t : task A) (f : error -> task A) : task A :=
  fun pg =>
    match t pg with
    | (pg', Fulfilled a) => (pg', Fulfilled a)
    | (pg', Rejected e) => f e pg'
    end.

(** A handler body made of statements: a throw rejects, a normal end
    fulfils with [undefined]. *)
Definition body (c : page -> completion page) : task value :=
  fun pg =>
    match c pg with
    | Normal pg' => (pg', Fulfilled VUndefined)
    | Throw e pg' => (pg', Rejected e)
    end.

(** [x.innerHTML = value.k] as a statement. *)
Definition write_prop (set_x : string -> page -> page) (v : value) (k : string)
    (pg : page) : completion page :=
  match get_prop v k with
  | Fulfilled x => Normal (set_x (html_of x) pg)
  | Rejected e => Throw e pg
  end.

(** [console.log(value.k)] as a statement. *)
Definition log_prop (v : value) (k : string) (pg : page) : completion page :=
  match get_prop v k with
  | Fulfilled x => Normal (log x pg)
  | Rejected e => Throw e pg
  end.

(** The first [then] handler, lines 14 to 21. *)
Definition on_response (r : response) : task value :=
  fun pg =>
    if negb (ok r) then (pg, Rejected (Error (userinput_value pg +:+ " Not Found :")))
    else (pg, json r).

(** The second [then] handler, lines 21 to 32. *)
Definition on_value (v : value) : task value :=
  body (fun pg =>
    Normal (set_fetching_display "none" pg)
    >>> (fun pg => Normal (set_cantainer_display "flex" pg))
    >>> (fun pg => Normal (set_city (userinput_value pg) pg))
    >>> write_prop set_citytemp v "temperature"
    >>> write_prop set_wind v "wind"
    >>> write_prop set_des v "description"
    >>> log_prop v "temperature"
    >>> log_prop v "wind"
    >>> log_prop v "description").

(** The [catch] handler, lines 32 to 40. *)
Definition on_error (e : error) : task value :=
  body (fun pg =>
    Normal (log (VStr "Error occure:") pg)
    >>> (fun pg => Normal (set_fetching_display "flex" pg))
    >>> (fun pg => Normal (set_cantainer_display "none" pg))
    >>> (fun pg => Normal (set_fetching_innerHTML (error_to_string e) pg))).

(** The statements [weather()] runs before the fetch settles, lines 11
    to 13. *)
Definition loading (pg : page) : page :=
  set_cantainer_display "none"
    (set_fetching_display "flex" (log (VStr "Fetching Data...") pg)).

(** [weather()] on the page [pg], the fetch settling with [f]; the page
    once the chain has run. *)
Definition weather (f : fetched) (pg : page) : page :=
  let p : task response := fun pg => (pg, f) in
  fst (catch (then_ (then_ p on_response) on_value) on_error (loading pg)).

(** The settlements of the fetch that carry data: a response with a 2xx
    status whose body parses to a value other than [undefined] and
    [null]. *)
Definition carries_data (f : fetched) : bool :=
  match f with
  | Fulfilled r =>
      ok r && match json r with
              | Fulfilled v => negb (nullish v)
              | Rejected _ => false
              end
  | Rejected _ => false
  end.

(** The settlements where the second handler starts and then throws: a
    2xx response whose body parses to [null]. *)
Definition null_body (f : fetched) : bool :=
  match f with
  | Fulfilled r =>
      ok r && match json r with
              | Fulfilled v => nullish v
              | Rejected _ => false
              end
  | Rejected _ => false
  end.

End Weather.

(** ** The cache of the weather module ([WeatherCache]) *)

Module WeatherCache.
Import JS.

(** [const CACHE_TTL = 15 * 60 * 1000] *)
Definition CACHE_TTL : Z := 15 * 60 * 1000.

(** What [set] stores under a key: [{ timestamp, data }]. *)
Record entry := { timestamp : Z; data : value }.

(** [this.store], a [Map] keyed by strings. *)
Abbreviation store := (gmap string entry).

(** [now - entry.timestamp > CACHE_TTL] *)
Definition expired (now : Z) (e : entry) : bool :=
  now - timestamp e >? CACHE_TTL.

(** [set(key, data)], [Date.now()] reading [now]. *)
Definition set (now : Z) (key : string) (d : value) (s : store) : store :=
  <[key := {| timestamp := now; data := d |}]> s.

(** [get(key)], [Date.now()] reading [now]: the value returned and the
    store left. *)
Definition get (now : Z) (key : string) (s : store) : value * store :=
  match s !! key with
  | None => (VNull, s)
  | Some e =>
      if expired now e then (VNull, delete key s)
      else (data e, s)
  end.

(** [cleanup()], [Date.now()] reading [now]: the loop over the entries
    deletes from the store it iterates. *)
Definition cleanup (now : Z) (s : store) : store :=
  map_fold (fun key e acc => if expired now e then delete key acc else acc) s s.

End WeatherCache.

(** ** [throttle] *)

Module Throttle.
Import JS.

Section Throttled.
(** [W]: what [fn] acts on; [A]: its arguments. *)
Context {W A : Type}.

(** The closure [throttle(fn, delay)] returns: its variable [lastCall],
    beside the state [fn] acts on. *)
Record closure := { lastCall : Z; world : W }.

(** [let lastCall = 0] *)
Definition throttle (w : W) : closure := {| lastCall := 0; world := w |}.

(** A call of the returned function with [args], [new Date().getTime()]
    reading [now]. *)
Definition call (fn : A -> W -> W * value) (delay : Z) (now : Z) (args : A)
    (c : closure) : closure * value :=
  if now - lastCall c <? delay then (c, VUndefined)
  else
    let '(w', r) := fn args (world c) in
    ({| lastCall := now; world := w' |}, r).

(** A series of calls, each with its time and arguments; the values
    returned, in order. *)
Fixpoint calls (fn : A -> W -> W * value) (delay : Z) (l : list (Z * A))
    (c : closure) : closure * list value :=
  match l with
  | [] => (c, [])
  | (now, args) :: l' =>
      let '(c1, r) := call fn delay now args c in
      let '(c2, rs) := calls fn delay l' c1 in
      (c2, r :: rs)
  end.
End Throttled.
Arguments closure : clear implicits.

(** A function that records the arguments of each of its invocations and
    returns them. *)
Definition record_call (args : Z) (seen : list Z) : list Z * value :=
  ((seen ++ [args])%list, VNum args).

(** Each element is at least [delay] after the one before it, the first
    one after [prev]. *)
Fixpoint spaced (delay prev : Z) (l : list Z) : Prop :=
  match l with
  | [] => True
  | t :: l' => delay <= t - prev /\ spaced delay t l'
  end.

End Throttle.

(** ** [WeatherApiClient.fetchWithRetry] *)

Module WeatherApiClient.
Import JS.

(** [const MAX_RETRIES = 3] *)
Definition MAX_RETRIES : Z := 3.

(** How a [fetch] settles. *)
Abbreviation fetched := (settled Weather.response error).

(** The steps of an [async] function: it awaits a [fetch], it awaits a
    timer, or it settles. *)
Inductive prog (A : Type) :=
| Ret (a : A)
| Fetch (url : string) (k : fetched -> prog A)
| Sleep (ms : Z) (k : prog A).
Arguments Ret {A} a.
Arguments Fetch {A} url k.
Arguments Sleep {A} ms k.

(** The [try] block on the settlement [f] of the [fetch]: what it returns,
    or what it throws into the [catch] block. *)
Definition try_block (f : fetched) : settled value error :=
  match f with
  | Rejected e => Rejected e
  | Fulfilled response =>
      if negb (Weather.ok response) then
        Rejected (Error ("HTTP " +:+ number_to_string (Weather.status response)))
      else Weather.json response
  end.

(** [fetchWithRetry(url, retries)], by recursion on the calls still
    allowed; [fuel] bounds them and is [retries] in [fetchWithRetry]. *)
Fixpoint fetchWithRetry_go (fuel : nat) (url : string) (retries : Z)
    : prog (settled value error) :=
  Fetch url (fun f =>
    match try_block f with
    | Fulfilled v => Ret (Fulfilled v)
    | Rejected error =>
        if retries >? 0 then
          match fuel with
          | S fuel' =>
              Sleep (1000 * (MAX_RETRIES - retries + 1))
                (fetchWithRetry_go fuel' url (retries - 1))
          | O => Ret (Rejected error)
          end
        else Ret (Rejected error)
    end).

Definition fetchWithRetry (url : string) (retries : Z) : prog (settled value error) :=
  fetchWithRetry_go (Z.to_nat retries) url retries.

(** What can be observed of a run. *)
Inductive event :=
| Fetched (url : string)
| Slept (ms : Z).

(** Run the steps; [env n] is how the [n]-th [fetch] settles. *)
Fixpoint run {A} (pr : prog A) (env : nat -> fetched) (n : nat) : list event * A :=
  match pr with
  | Ret a => ([], a)
  | Fetch url k =>
      let '(t, a) := run (k (env n)) env (S n) in (Fetched url :: t, a)
  | Sleep ms k => let '(t, a) := run k env n in (Slept ms :: t, a)
  end.

Definition fetches (t : list event) : list string :=
  omap (fun e => match e with Fetched url => Some url | _ => None end) t.

Definition sleeps (t : list event) : list Z :=
  omap (fun e => match e with Slept ms => Some ms | _ => None end) t.

(** Whether the [n]-th [fetch] makes the [try] block return. *)
Definition succeeds (env : nat -> fetched) (n : nat) : bool :=
  match try_block (env n) with
  | Fulfilled _ => true
  | Rejected _ => false
  end.

(** The number of fetches that fail before the first that succeeds, among
    those numbered [n] to [n + fuel - 1]. *)
Fixpoint failures_before (env : nat -> fetched) (n fuel : nat) : nat :=
  match fuel with
  | O => O
  | S fuel' =>
      if succeeds env n then O else S (failures_before env (S n) fuel')
  end.

End WeatherApiClient.

(** ** [generateRandomId] *)

Module Utilities.
Import JS.

(** [const chars], the 62 letters and digits. *)
Definition chars : string :=
  "ABCDEFGHIJKLMNOPQRSTUVWXYZabcdefghijklmnopqrstuvwxyz0123456789".

(** [s.charAt(n)]: the character at index [n], the empty string past the
    end. *)
Definition charAt (n : nat) (s : string) : string :=
  match String.get n s with
  | Some c => String c ""
  | None => ""
  end.

(** The [for] loop with [k] rounds to go, at index [i]; [rnd i] is the
    value of [Math.floor(Math.random() * chars.length)] in round [i]. *)
Fixpoint generateRandomId_loop (k i : nat) (rnd : nat -> nat) (result : string)
    : string :=
  match k with
  | O => result
  | S k' =>
      generateRandomId_loop k' (S i) rnd (result +:+ charAt (rnd i) chars)
  end.

(** [generateRandomId(length)] for an integer [length]. *)
Definition generateRandomId (length : Z) (rnd : nat -> nat) : string :=
  generateRandomId_loop (Z.to_nat length) 0 rnd "".

End Utilities.

(** ** Sample inputs *)

Module Samples.
Import JS.

(** 5 January 2024, 00:07:59. *)
Definition new_year_night : Date :=
  {| year := 2024; month := 1; day := 5; hour := 0; minute := 7; second := 59 |}.

(** 17 March 2025, 13:05:09. *)
Definition march_afternoon : Date :=
  {| year := 2025; month := 3; day := 17; hour := 13; minute := 5; second := 9 |}.

(** 31 December 1999, 23:59:59. *)
Definition millennium_eve : Date :=
  {| year := 1999; month := 12; day := 31; hour := 23; minute := 59; second := 59 |}.

Definition blank_clock : Clock.page := [""; ""; ""; ""].

Definition blank_weather_page : Weather.page :=
  {| Weather.userinput_value := "Lahore";
     Weather.city_innerHTML := "";
     Weather.citytemp_innerHTML := "";
     Weather.wind_innerHTML := "";
     Weather.des_innerHTML := "";
     Weather.cantainer_display := "none";
     Weather.fetching_display := "none";
     Weather.fetching_innerHTML := "";
     Weather.console := [] |}.

(** A 404 answer. *)
Definition not_found : Weather.response :=
  {| Weather.status := 404;
     Weather.json := Fulfilled (VObject [("message", VStr "NOT_FOUND")]) |}.

(** A 200 answer with the three fields and a forecast. *)
Definition sunny : Weather.response :=
  {| Weather.status := 200;
     Weather.json :=
       Fulfilled (VObject [("temperature", VStr "+30 C");
                           ("wind", VStr "10 km/h");
                           ("description", VStr "Sunny");
                           ("forecast", VArray [])]) |}.

(** A 200 answer whose body is an HTML page, not JSON. *)
Definition html_body : Weather.response :=
  {| Weather.status := 200;
     Weather.json :=
       Rejected {| ename := "SyntaxError";
                   message := "Unexpected token '<' is not valid JSON" |} |}.

(** The browser fails the first load and completes the second. *)
Definition second_time_lucky (n : nat) : PromiseLoader.outcome :=
  match n with
  | 1%nat => PromiseLoader.Loaded
  | _ => PromiseLoader.Failed
  end.

(** A server that answers 503 twice and then 200. *)
Definition busy : Weather.response :=
  {| Weather.status := 503; Weather.json := Fulfilled VNull |}.

Definition third_time_lucky (n : nat) : WeatherApiClient.fetched :=
  match n with
  | 0%nat | 1%nat => Fulfilled busy
  | _ => Fulfilled sunny
  end.

End Samples.

(** * Properties *)

(** ** Strings *)

Section StringFacts.
Import JS.

Lemma append_cons (c : ascii) (a b : string) : String c a +:+ b = String c (a +:+ b).
Proof. reflexivity. Qed.

Lemma append_empty_l (b : string) : "" +:+ b = b.
Proof. reflexivity. Qed.

Lemma append_empty_r (s : string) : s +:+ "" = s.
Proof. induction s; rewrite ?append_cons, ?append_empty_l; congruence. Qed.

Lemma append_assoc (a b c : string) : (a +:+ b) +:+ c = a +:+ (b +:+ c).
Proof. induction a; rewrite ?append_cons, ?append_empty_l; congruence. Qed.

Lemma append_not_empty (a b : string) : b ≠ "" → String.eqb (a +:+ b) "" = false.
Proof.
  intros Hb. destruct a; [|reflexivity].
  rewrite append_empty_l. destruct b; [done|reflexivity].
Qed.

End StringFacts.

(** ** The clock *)

Section ClockFacts.
Import JS Clock.

Lemma small_hour (h : Z) :
  0 <= h < 24 → ∃ n : nat, (n < 24)%nat ∧ h = Z.of_nat n.
Proof. intros Hh. exists (Z.to_nat h). lia. Qed.

(** The text of [hours] the callback builds is the hour in the wording
    of the specification. *)
Lemma hour_text_spec (a : Date) :
  0 <= getHours a < 24 → to_string (hours12 a) = spec_hour a.
Proof.
  destruct a as [y mo d h mi s]. unfold hours12, spec_hour, getHours. simpl hour.
  intros Hh. destruct (small_hour h Hh) as (n & Hn & ->). clear Hh.
  do 24 (destruct n as [|n]; [vm_compute; reflexivity|]). lia.
Qed.

Lemma period_AM (a : Date) : period a = "AM" ↔ getHours a < 12.
Proof.
  unfold period. destruct (Z.geb_spec (getHours a) 12); split; intros; (done || lia).
Qed.

Lemma period_PM (a : Date) : period a = "PM" ↔ ¬ getHours a < 12.
Proof.
  unfold period. destruct (Z.geb_spec (getHours a) 12); split; intros; (done || lia).
Qed.

(** On a page with the four elements, the callback ends normally and
    writes the four texts. *)
Lemma tick_writes (a : Date) (p : page) :
  (4 <= length p)%nat →
  ∃ p', tick a p = Normal p'
    ∧ p' !! 0%nat = Some (to_string (hours12 a) +:+ ":")
    ∧ p' !! 1%nat = Some (to_string (minutes2 a) +:+ ":")
    ∧ p' !! 2%nat = Some (to_string (seconds2 a) +:+ "  ")
    ∧ p' !! 3%nat = Some (" " +:+ period a)
    ∧ length p' = length p.
Proof.
  intros Hp.
  destruct p as [|e0 [|e1 [|e2 [|e3 rest]]]]; simpl in Hp; try lia.
  eexists. repeat split.
Qed.

(** With fewer than four elements the callback throws. *)
Lemma tick_throws (a : Date) (p : page) :
  (length p < 4)%nat → ∃ e p', tick a p = Throw e p'.
Proof.
  intros Hp.
  destruct p as [|e0 [|e1 [|e2 [|e3 rest]]]]; simpl in Hp; try lia;
    do 2 eexists; reflexivity.
Qed.

(** C1: for every sampled time [a] (hours from 0 to 23), on a page that
    has the four elements of class "time", the hour is rendered as
    [(hours % 12) || 12] padded to two digits with a leading zero, followed
    by the separator ":", and the rendered period, written after a space,
    is "AM" if and only if [hours < 12], and "PM" otherwise. *)
Theorem clock_renders_hour_and_period (a : Date) (p : page) :
  0 <= getHours a < 24 →
  (4 <= length p)%nat →
  to_string (hours12 a) = spec_hour a
  ∧ (period a = "AM" ↔ getHours a < 12)
  ∧ (period a = "PM" ↔ ¬ getHours a < 12)
  ∧ ∃ p', tick a p = Normal p'
      ∧ p' !! 0%nat = Some (spec_hour a +:+ ":")
      ∧ p' !! 3%nat = Some (" " +:+ period a).
Proof.
  intros Hh Hp.
  destruct (tick_writes a p Hp) as (p' & Ht & H0 & _ & _ & H3 & _).
  rewrite (hour_text_spec a Hh) in H0.
  split; [by apply hour_text_spec|].
  split; [apply period_AM|]. split; [apply period_PM|].
  exists p'. done.
Qed.

Lemma clock_renders_hour_and_period_witness :
  Clock.tick Samples.march_afternoon Samples.blank_clock
    = Normal ["01:"; "05:"; "09  "; " PM"]
  ∧ (period Samples.march_afternoon = "AM" ↔ getHours Samples.march_afternoon < 12).
Proof.
  destruct (clock_renders_hour_and_period Samples.march_afternoon Samples.blank_clock)
    as (_ & HAM & _ & _).
  - vm_compute. split; [discriminate | reflexivity].
  - vm_compute. lia.
  - split; [reflexivity | exact HAM].
Defined.

End ClockFacts.

(** ** The Student classes *)

Section StudentFacts.
Import JS Students.

Lemma get_set_eq (k : string) (v : value) (w : world) :
  get (this (set k v w)) k = v.
Proof. unfold get, set. simpl. by rewrite lookup_insert_eq. Qed.

Lemma get_set_ne (k k' : string) (v : value) (w : world) :
  k ≠ k' → get (this (set k v w)) k' = get (this w) k'.
Proof. intros Hne. unfold get, set. simpl. by rewrite lookup_insert_ne. Qed.

Lemma this_log (s : string) (w : world) : this (log s w) = this w.
Proof. reflexivity. Qed.

Lemma console_set (k : string) (v : value) (w : world) :
  console (set k v w) = console w.
Proof. reflexivity. Qed.

Lemma this_Student_info (w : world) : this (Student_info w) = this w.
Proof. unfold Student_info. by destruct (loosely_undefined _). Qed.

Lemma this_info (c : class) (w : world) : this (info c w) = this w.
Proof.
  destruct c; simpl; [apply this_Student_info|].
  unfold CS_Student_info. destruct (loosely_undefined _); [done|].
  rewrite this_log. apply this_Student_info.
Qed.

Lemma name_after_cancel (x : Date) (w : world) :
  get (this (cancel x w)) "name" = VUndefined.
Proof. unfold cancel. rewrite get_set_ne by done. apply get_set_eq. Qed.

(** C3: whatever the state of a [Student] or [CS_Student] before,
    [info()] called after [cancel()] logs the one text
    "Student not exits!" and nothing else, and leaves the object as
    [cancel()] left it. *)
Theorem info_after_cancel (c : class) (x : Date) (w : world) :
  console (info c (cancel x w)) = (console (cancel x w) ++ ["Student not exits!"])%list
  ∧ this (info c (cancel x w)) = this (cancel x w).
Proof.
  split; [|apply this_info].
  destruct c; simpl; unfold Student_info, CS_Student_info;
    by rewrite name_after_cancel.
Qed.

(** What each method does to a timestamp field. *)
Lemma timestamp_after_submit (now : Date) (w : world) (k : string) :
  k ∈ timestamp_fields → is_defined (this (submit now w)) k = true.
Proof.
  unfold timestamp_fields, submit, is_defined. intros Hk.
  repeat (apply elem_of_cons in Hk as [-> | Hk]);
    [..|by apply elem_of_nil in Hk];
    rewrite ?get_set_eq; try done;
    repeat (rewrite get_set_ne by done; rewrite ?get_set_eq; try done).
Qed.

Lemma timestamp_kept_by_cancel (x : Date) (w : world) (k : string) :
  k ∈ timestamp_fields → get (this (cancel x w)) k = get (this w) k.
Proof.
  unfold timestamp_fields, cancel. intros Hk.
  repeat (apply elem_of_cons in Hk as [-> | Hk]);
    [..|by apply elem_of_nil in Hk];
    by rewrite !get_set_ne.
Qed.

Lemma timestamp_kept_by_add (r n : value) (w : world) (k : string) :
  k ∈ timestamp_fields → get (this (add r n w)) k = get (this w) k.
Proof.
  unfold timestamp_fields, add. intros Hk.
  repeat (apply elem_of_cons in Hk as [-> | Hk]);
    [..|by apply elem_of_nil in Hk];
    by rewrite !get_set_ne.
Qed.

Lemma timestamp_after_invoke (c : class) (m : call) (w w' : world) (k : string) :
  k ∈ timestamp_fields →
  invoke c m w = Normal w' →
  is_defined (this w') k = is_defined (this w) k || is_submit m.
Proof.
  intros Hk Hm. destruct m as [now | x | | r n]; simpl in Hm.
  - injection Hm as <-. rewrite timestamp_after_submit by done.
    simpl. by rewrite orb_true_r.
  - injection Hm as <-. unfold is_defined.
    rewrite timestamp_kept_by_cancel by done. simpl. by rewrite orb_false_r.
  - injection Hm as <-. rewrite this_info. simpl. by rewrite orb_false_r.
  - destruct c; [discriminate|]. injection Hm as <-. unfold is_defined.
    rewrite timestamp_kept_by_add by done. simpl. by rewrite orb_false_r.
Qed.

Lemma timestamp_after_run (c : class) (ms : list call) (w w' : world) (k : string) :
  k ∈ timestamp_fields →
  run c ms w = Normal w' →
  is_defined (this w') k = is_defined (this w) k || existsb is_submit ms.
Proof.
  intros Hk. revert w. induction ms as [|m ms IH]; intros w Hrun; simpl in Hrun.
  - injection Hrun as <-. simpl. by rewrite orb_false_r.
  - destruct (invoke c m w) as [w1|e w1] eqn:Hm; simpl in Hrun; [|discriminate].
    rewrite (IH _ Hrun), (timestamp_after_invoke _ _ _ _ _ Hk Hm).
    simpl. by rewrite orb_assoc.
Qed.

Lemma timestamp_after_constructor (name program : string) (out : list string)
    (k : string) :
  k ∈ timestamp_fields → this (constructor name program out) !! k = None.
Proof.
  unfold timestamp_fields, constructor. intros Hk. simpl.
  repeat (apply elem_of_cons in Hk as [-> | Hk]);
    [..|by apply elem_of_nil in Hk];
    by rewrite !lookup_insert_ne, lookup_empty.
Qed.

(** A script that never calls [add] on a plain [Student] runs to its
    end. *)
Lemma run_CS_Student_total (ms : list call) (w : world) :
  ∃ w', run CS_Student ms w = Normal w'.
Proof.
  revert w. induction ms as [|m ms IH]; intros w; simpl; [by eexists|].
  destruct m; simpl; apply IH.
Qed.

(** C6: on an object built by the constructor and then used through any
    sequence [ms] of calls to [submit], [cancel], [info] and [add], each of
    [hours], [minutes], [seconds] and [date] is defined exactly when
    [submit] is among the calls made. *)
Theorem timestamp_defined_iff_submitted
    (c : class) (name program : string) (out : list string)
    (ms : list call) (w : world) (k : string) :
  run c ms (constructor name program out) = Normal w →
  k ∈ timestamp_fields →
  is_defined (this w) k = existsb is_submit ms.
Proof.
  intros Hrun Hk. rewrite (timestamp_after_run _ _ _ _ _ Hk Hrun).
  unfold is_defined, get. by rewrite timestamp_after_constructor.
Qed.

Lemma timestamp_defined_iff_submitted_witness :
  is_defined
    (this (info CS_Student
             (cancel Samples.march_afternoon
                (submit Samples.new_year_night
                   (constructor "Rizwan Ahmed " "Inofrmation Tehcnology" [])))))
    "date" = true.
Proof.
  apply (timestamp_defined_iff_submitted CS_Student
           "Rizwan Ahmed " "Inofrmation Tehcnology" []
           [Submit Samples.new_year_night; Cancel Samples.march_afternoon; Info]).
  - reflexivity.
  - unfold timestamp_fields. repeat constructor.
Defined.

(** C7: [cancel()] sets [name] and [program] to [undefined] and leaves
    every other property of the object as it was, present or absent:
    [hours], [minutes], [seconds], [date], and the [rnumber] and [nice] of
    a [CS_Student]. *)
Theorem cancel_frame (x : Date) (w : world) :
  this (cancel x w) !! "name" = Some VUndefined
  ∧ this (cancel x w) !! "program" = Some VUndefined
  ∧ (∀ k, k ≠ "name" → k ≠ "program" → this (cancel x w) !! k = this w !! k)
  ∧ Forall (λ k, this (cancel x w) !! k = this w !! k)
      ["hours"; "minutes"; "seconds"; "date"; "rnumber"; "nice"].
Proof.
  unfold cancel, set. simpl. split; [|split; [|split]].
  - by rewrite lookup_insert_ne, lookup_insert_eq.
  - by rewrite lookup_insert_eq.
  - intros k Hn Hp. by rewrite !lookup_insert_ne.
  - repeat constructor; by rewrite !lookup_insert_ne.
Qed.

Lemma cancel_frame_witness :
  this (cancel Samples.march_afternoon (Students.rizwan [])) !! "rnumber"
  = Some (VNum 30).
Proof.
  rewrite (proj1 (proj2 (proj2 (cancel_frame Samples.march_afternoon (Students.rizwan []))))
             "rnumber").
  - reflexivity.
  - discriminate.
  - discriminate.
Defined.

(** C8: on a [CS_Student] whose [name] is defined (the test of the code:
    not loosely equal to [undefined]), [CS_Student.info()] logs what
    [Student.info()] logs on the same state and then one more text, made of
    a line for [rnumber] and a line for [nice]; like [Student.info()] it
    leaves the object unchanged. *)
Theorem CS_info_extends_Student_info (w : world) :
  loosely_undefined (get (this w) "name") = false →
  console (info CS_Student w)
  = (console (info Student w)
     ++ [nl +:+ "Roll Number: " +:+ to_string (get (this w) "rnumber")
         +:+ nl +:+ "NICE: " +:+ to_string (get (this w) "nice")])%list
  ∧ this (info CS_Student w) = this (info Student w).
Proof.
  intros Hname. simpl. unfold CS_Student_info. rewrite Hname.
  rewrite this_log. split; [|done].
  unfold log at 1. simpl. by rewrite this_Student_info.
Qed.

Lemma CS_info_extends_Student_info_witness :
  console (info CS_Student (Students.rizwan []))
  = (console (info Student (Students.rizwan []))
     ++ [nl +:+ "Roll Number: 30" +:+ nl +:+ "NICE: 5429332333552"])%list.
Proof.
  apply (CS_info_extends_Student_info (Students.rizwan [])). reflexivity.
Defined.

(** Objects built by the constructor and used through the methods never
    hold [null] as [name]: it is a string, or [undefined] after a
    [cancel()]. *)
Lemma name_after_invoke (c : class) (m : call) (w w' : world) :
  invoke c m w = Normal w' →
  (get (this w) "name" = VUndefined ∨ ∃ s, get (this w) "name" = VStr s) →
  get (this w') "name" = VUndefined ∨ ∃ s, get (this w') "name" = VStr s.
Proof.
  intros Hm Hw. destruct m as [now | x | | r n]; simpl in Hm.
  - injection Hm as <-. unfold submit. by rewrite !get_set_ne.
  - injection Hm as <-. left. apply name_after_cancel.
  - injection Hm as <-. by rewrite this_info.
  - destruct c; [discriminate|]. injection Hm as <-. unfold add.
    by rewrite !get_set_ne.
Qed.

Lemma name_never_null (c : class) (name program : string) (out : list string)
    (ms : list call) (w : world) :
  run c ms (constructor name program out) = Normal w →
  get (this w) "name" = VUndefined ∨ ∃ s, get (this w) "name" = VStr s.
Proof.
  assert (Hstart : get (this (constructor name program out)) "name" = VUndefined
                   ∨ ∃ s, get (this (constructor name program out)) "name" = VStr s).
  { right. exists (toUpperCase name). unfold constructor. rewrite this_log.
    rewrite !get_set_ne by done. apply get_set_eq. }
  revert Hstart. generalize (constructor name program out).
  induction ms as [|m ms IH]; intros w0 Hw0 Hrun; simpl in Hrun.
  - by injection Hrun as <-.
  - destruct (invoke c m w0) as [w1|e w1] eqn:Hm; simpl in Hrun; [|discriminate].
    eapply IH; [|done]. by eapply name_after_invoke.
Qed.

(** C9: the object the constructor builds from the strings [name] and
    [program], for a [Student] as for a [CS_Student] (which inherits the
    constructor), has the two properties [name] and [program] and no other;
    they hold the upper-cased strings, so that the strings as passed are
    not kept. *)
Theorem constructor_stores_upper_case (name program : string) (out : list string) :
  this (constructor name program out)
  = {[ "name" := VStr (toUpperCase name); "program" := VStr (toUpperCase program) ]}
  ∧ get (this (constructor name program out)) "name" = VStr (toUpperCase name)
  ∧ get (this (constructor name program out)) "program" = VStr (toUpperCase program).
Proof.
  unfold constructor, get. rewrite this_log. unfold set. simpl.
  split; [|split].
  - apply map_eq. intros k.
    destruct (decide (k = "program")) as [-> | Hp]; [by simplify_map_eq|].
    destruct (decide (k = "name")) as [-> | Hn]; by simplify_map_eq.
  - by simplify_map_eq.
  - by simplify_map_eq.
Qed.

End StudentFacts.

(** ** The date text of [submit] and [cancel] *)

Section DateFacts.
Import JS Students.

Lemma split_on_no_sep (sep : ascii) (s : string) :
  has_char sep s = false → split_on sep s = [s].
Proof.
  induction s as [|c r IH]; simpl; [done|].
  destruct (Ascii.eqb c sep); simpl; [done|].
  intros Hr. by rewrite (IH Hr).
Qed.

Lemma split_on_app (sep : ascii) (a b : string) :
  has_char sep a = false →
  split_on sep (a +:+ String sep b) = a :: split_on sep b.
Proof.
  induction a as [|c r IH]; rewrite ?append_cons, ?append_empty_l; simpl.
  - intros _. by rewrite Ascii.eqb_refl.
  - destruct (Ascii.eqb c sep); simpl; [done|].
    intros Hr. by rewrite (IH Hr).
Qed.

Lemma digits_no_slash (d : Decimal.uint) :
  has_char "/" (NilEmpty.string_of_uint d) = false.
Proof. induction d; simpl; done. Qed.

Lemma number_no_slash (n : Z) : has_char "/" (number_to_string n) = false.
Proof.
  unfold number_to_string, NilZero.string_of_int, NilZero.string_of_uint.
  destruct (Z.to_int n) as [d|d]; destruct d; simpl; try done;
    apply digits_no_slash.
Qed.

Lemma split_date (d m y : Z) :
  split_on "/" (number_to_string d +:+ "/" +:+ number_to_string m
                +:+ "/" +:+ number_to_string y)
  = [number_to_string d; number_to_string m; number_to_string y].
Proof.
  rewrite !append_cons, !append_empty_l.
  rewrite split_on_app by apply number_no_slash.
  rewrite split_on_app by apply number_no_slash.
  by rewrite split_on_no_sep by apply number_no_slash.
Qed.

(** C10: for a call made at any instant [now], in the calendar month
    [month now] (1 to 12), the [d/m/yyyy] text that [submit()] stores in
    [date] has as its month the number [month now - 1]; [cancel()] logs the
    same text between the name and the program. *)
Theorem date_month_is_zero_based (now : Date) (w : world) :
  ∃ text,
    get (this (submit now w)) "date" = VStr text
    ∧ split_on "/" text
      = [number_to_string (day now); number_to_string (month now - 1);
         number_to_string (year now)]
    ∧ month_component text = Some (number_to_string (month now - 1))
    ∧ last (console (cancel now w))
      = Some (to_string (get (this w) "name")
              +:+ " Your Form was Cancelled  on  " +:+ text
              +:+ " For Program " +:+ to_string (get (this w) "program")).
Proof.
  eexists. split; [|split; [|split]].
  - unfold submit. apply get_set_eq.
  - apply split_date.
  - unfold month_component, getMonth, getDate, getFullYear.
    by rewrite split_date.
  - unfold cancel. rewrite !console_set. unfold log at 1. simpl console.
    rewrite last_snoc. f_equal. f_equal.
    rewrite !append_assoc. reflexivity.
Qed.

Example january_is_month_0 :
  get (this (submit Samples.new_year_night (Students.rizwan []))) "date"
  = VStr "5/0/2024".
Proof. reflexivity. Qed.

Example december_is_month_11 :
  get (this (submit Samples.millennium_eve (Students.rizwan []))) "date"
  = VStr "31/11/1999".
Proof. reflexivity. Qed.

End DateFacts.

(** ** The callback loader *)

Section CallbackFacts.
Import JS CallbackLoader.

Lemma func_appends {W} (src : string) (load : value → string → W → W)
    (b : browser W) :
  head (func src load b) !! length (head b)
  = Some {| src := src;
            onload := load (VBool false) src;
            onerror := load (VBool true) src |}
  ∧ length (head (func src load b)) = S (length (head b))
  ∧ state (func src load b) = state b.
Proof.
  unfold func. simpl. split; [|split]; [|by rewrite length_app, Nat.add_comm|done].
  rewrite lookup_app_r by done. by rewrite Nat.sub_diag.
Qed.

Lemma settle_new_script {W} (src : string) (load : value → string → W → W)
    (b : browser W) (o : outcome) :
  state (settle (length (head b)) o (func src load b))
  = load (flag_of o) src (state b).
Proof.
  unfold settle. destruct (func_appends src load b) as (-> & _ & Hst).
  simpl. by destruct o.
Qed.

(** Settling the load of another script does not run the handlers of the
    new one. *)
Lemma settle_out_of_range {W} (b : browser W) (i : nat) (o : outcome) :
  (length (head b) <= i)%nat → settle i o b = b.
Proof.
  intros Hi. unfold settle. rewrite lookup_ge_None_2 by done. done.
Qed.

(** C4: [func(src, load)] invokes nothing by itself; when the browser then
    settles the load of the script it injected, the callback is invoked
    once, with a falsy flag if [onload] fires and a truthy flag if
    [onerror] fires, and with [src] as its second argument.  The count is
    read off a callback that records its invocations. *)
Theorem callback_invoked_once_with_flag {W} (load : value → string → W → W)
    (src : string) (b : browser W) (calls : browser (list (value * string)))
    (o : outcome) :
  state (func src load b) = state b
  ∧ state (settle (length (head b)) o (func src load b))
    = load (flag_of o) src (state b)
  ∧ truthy (flag_of Loaded) = false
  ∧ truthy (flag_of Failed) = true
  ∧ state (func src recorder calls) = state calls
  ∧ state (settle (length (head calls)) o (func src recorder calls))
    = (state calls ++ [(flag_of o, src)])%list.
Proof.
  split; [done|]. split; [apply settle_new_script|].
  split; [done|]. split; [done|]. split; [done|].
  by rewrite settle_new_script.
Qed.

Example bootstrap_loaded :
  state (settle 0 Loaded (main []))
  = ["Script Loaded"; bootstrap_url].
Proof. reflexivity. Qed.

Example bootstrap_failed :
  state (settle 0 Failed (main [])) = ["Error"; bootstrap_url].
Proof. reflexivity. Qed.

End CallbackFacts.

(** ** The promise loader and its retry chain *)

Section PromiseFacts.
Import JS PromiseLoader.

(** The three ways the chain can run, by how the browser settles the
    first two loads. *)
Lemma run_p_first_loads (env : nat → outcome) :
  env 0%nat = Loaded →
  run p env 0
  = ([Injected tailwind_url;
      Logged "this is value of resolve which is  resolve"],
     Fulfilled VUndefined).
Proof. intros H0. unfold p. cbn. rewrite H0. reflexivity. Qed.

Lemma run_p_second_loads (env : nat → outcome) :
  env 0%nat = Failed → env 1%nat = Loaded →
  run p env 0
  = ([Injected tailwind_url;
      Logged "this is value of error which is  Rejected";
      Injected tailwind_url;
      Logged "this is value of resolve which is  resolve"],
     Fulfilled VUndefined).
Proof. intros H0 H1. unfold p. cbn. rewrite H0. cbn. rewrite H1. reflexivity. Qed.

Lemma run_p_third_decides (env : nat → outcome) :
  env 0%nat = Failed → env 1%nat = Failed →
  run p env 0
  = ([Injected tailwind_url;
      Logged "this is value of error which is  Rejected";
      Injected tailwind_url;
      Logged "this is value of error which is  Rejected";
      Injected tailwind_url],
     match env 2%nat with
     | Loaded => Fulfilled (VStr "resolve")
     | Failed => Rejected (VStr "Rejected")
     end).
Proof.
  intros H0 H1. unfold p. cbn. rewrite H0. cbn. rewrite H1. cbn.
  by destruct (env 2%nat).
Qed.

(** C5: however the browser settles the loads, the chain makes one load
    attempt and one more for each of the first two attempts that reject,
    three at most, every one with the same CDN URL; an attempt that
    resolves is the last one; and no timer is set between attempts. *)
Theorem retry_chain_three_attempts (env : nat → outcome) :
  attempts (run p env 0).1
  = replicate (S (failures_before_load env 0 2)) tailwind_url
  ∧ (length (attempts (run p env 0).1) <= 3)%nat
  ∧ (∀ i, (i < length (attempts (run p env 0).1))%nat → env i = Loaded →
          length (attempts (run p env 0).1) = S i)
  ∧ (env 0%nat = Failed → env 1%nat = Failed →
     length (attempts (run p env 0).1) = 3%nat)
  ∧ existsb is_wait (run p env 0).1 = false.
Proof.
  destruct (env 0%nat) eqn:H0; [|destruct (env 1%nat) eqn:H1].
  - rewrite (run_p_first_loads env H0). simpl. rewrite H0.
    repeat split; try done; try lia.
    all: intros [|i] Hi Hl; [done|simpl in Hi; lia].
  - rewrite (run_p_second_loads env H0 H1). simpl. rewrite H0, H1.
    repeat split; try done; try lia.
    all: intros [|[|i]] Hi Hl; [congruence|done|simpl in Hi; lia].
  - rewrite (run_p_third_decides env H0 H1). simpl. rewrite H0, H1.
    repeat split; try done; try lia.
    all: intros [|[|[|i]]] Hi Hl; [congruence|congruence|done|simpl in Hi; lia].
Qed.

Lemma retry_chain_three_attempts_witness :
  length (attempts (run p Samples.second_time_lucky 0).1) = 2%nat.
Proof.
  apply (proj1 (proj2 (proj2 (retry_chain_three_attempts Samples.second_time_lucky)))
           1%nat).
  - vm_compute. lia.
  - reflexivity.
Defined.

End PromiseFacts.

(** ** The weather widget *)

Section WeatherFacts.
Import JS Weather.

Lemma not_found_text (city : string) :
  error_to_string (Error (city +:+ " Not Found :"))
  = "Error: " +:+ city +:+ " Not Found :".
Proof.
  unfold error_to_string, Error. simpl.
  by rewrite append_not_empty.
Qed.

Lemma weather_not_ok (r : response) (pg : page) :
  ok r = false →
  weather (Fulfilled r) pg
  = set_fetching_innerHTML ("Error: " +:+ userinput_value pg +:+ " Not Found :")
      (set_cantainer_display "none"
         (set_fetching_display "flex"
            (log (VStr "Error occure:") (loading pg)))).
Proof.
  intros Hok. unfold weather, catch, then_, on_response. simpl.
  rewrite Hok. simpl. unfold on_error, body. simpl.
  by rewrite not_found_text.
Qed.

Lemma weather_json_rejected (r : response) (pg : page) (e : error) :
  ok r = true → json r = Rejected e →
  weather (Fulfilled r) pg
  = set_fetching_innerHTML (error_to_string e)
      (set_cantainer_display "none"
         (set_fetching_display "flex"
            (log (VStr "Error occure:") (loading pg)))).
Proof.
  intros Hok Hj. unfold weather, catch, then_, on_response. simpl.
  rewrite Hok, Hj. reflexivity.
Qed.

Lemma weather_json_nullish (r : response) (pg : page) (v : value) :
  ok r = true → json r = Fulfilled v → nullish v = true →
  fetching_display (weather (Fulfilled r) pg) = "flex"
  ∧ cantainer_display (weather (Fulfilled r) pg) = "none"
  ∧ ∃ e, get_prop v "temperature" = Rejected e
       ∧ fetching_innerHTML (weather (Fulfilled r) pg) = error_to_string e.
Proof.
  intros Hok Hj Hv. unfold weather, catch, then_, on_response. simpl.
  rewrite Hok, Hj. simpl.
  destruct v; try discriminate; (split; [done|split; [done|]]); by eexists.
Qed.

Lemma weather_json_value (r : response) (pg : page) (v : value) :
  ok r = true → json r = Fulfilled v → nullish v = false →
  weather (Fulfilled r) pg
  = log (prop_of v "description")
      (log (prop_of v "wind")
         (log (prop_of v "temperature")
            (set_des (html_of (prop_of v "description"))
               (set_wind (html_of (prop_of v "wind"))
                  (set_citytemp (html_of (prop_of v "temperature"))
                     (set_city (userinput_value pg)
                        (set_cantainer_display "flex"
                           (set_fetching_display "none" (loading pg))))))))).
Proof.
  intros Hok Hj Hv. unfold weather, catch, then_, on_response. simpl.
  rewrite Hok, Hj. simpl.
  destruct v; try discriminate; reflexivity.
Qed.

(** C2, as the code has it: when the fetch completes with a response
    whose status is not 2xx, the first handler throws, and the chain ends
    with the error container visible, the text of the error in it, and
    the data container hidden.  When the status is 2xx and the body parses
    as JSON to a value other than [null], the chain ends with the data
    container visible, the error container hidden, and the three fields
    [temperature], [wind] and [description] of the value written into
    their elements.  When the status is 2xx and the body does not parse as
    JSON, or parses to [null], the chain ends as for an error: error
    container visible, data container hidden. *)
Theorem weather_outcomes (r : response) (pg : page) :
  (ok r = false →
     (on_response r (loading pg)).2
       = Rejected (Error (userinput_value pg +:+ " Not Found :"))
     ∧ fetching_display (weather (Fulfilled r) pg) = "flex"
     ∧ fetching_innerHTML (weather (Fulfilled r) pg)
       = "Error: " +:+ userinput_value pg +:+ " Not Found :"
     ∧ cantainer_display (weather (Fulfilled r) pg) = "none")
  ∧ (ok r = true → ∀ v, json r = Fulfilled v → nullish v = false →
     cantainer_display (weather (Fulfilled r) pg) = "flex"
     ∧ fetching_display (weather (Fulfilled r) pg) = "none"
     ∧ citytemp_innerHTML (weather (Fulfilled r) pg) = html_of (prop_of v "temperature")
     ∧ wind_innerHTML (weather (Fulfilled r) pg) = html_of (prop_of v "wind")
     ∧ des_innerHTML (weather (Fulfilled r) pg) = html_of (prop_of v "description"))
  ∧ (ok r = true →
     (∃ e, json r = Rejected e) ∨ (∃ v, json r = Fulfilled v ∧ nullish v = true) →
     fetching_display (weather (Fulfilled r) pg) = "flex"
     ∧ cantainer_display (weather (Fulfilled r) pg) = "none").
Proof.
  split; [|split].
  - intros Hok. rewrite (weather_not_ok r pg Hok).
    unfold on_response. rewrite Hok. done.
  - intros Hok v Hj Hv. by rewrite (weather_json_value r pg v Hok Hj Hv).
  - intros Hok [[e He] | (v & Hj & Hv)].
    + by rewrite (weather_json_rejected r pg e Hok He).
    + destruct (weather_json_nullish r pg v Hok Hj Hv) as (? & ? & _). done.
Qed.

Lemma weather_outcomes_witness :
  cantainer_display (weather (Fulfilled Samples.sunny) Samples.blank_weather_page) = "flex"
  ∧ citytemp_innerHTML (weather (Fulfilled Samples.sunny) Samples.blank_weather_page)
    = "+30 C"
  ∧ fetching_innerHTML (weather (Fulfilled Samples.not_found) Samples.blank_weather_page)
    = "Error: Lahore Not Found :".
Proof.
  destruct (weather_outcomes Samples.sunny Samples.blank_weather_page)
    as (_ & Hdata & _).
  destruct (Hdata eq_refl _ eq_refl eq_refl) as (Hc & _ & Ht & _).
  destruct (weather_outcomes Samples.not_found Samples.blank_weather_page)
    as (Herr & _).
  destruct (Herr eq_refl) as (_ & _ & Hf & _).
  split; [exact Hc|]. split; [exact Ht | exact Hf].
Defined.

(** A response with status 200 whose body is not JSON: the status is 2xx,
    and yet the chain does not end with the data container visible and
    the error container hidden. *)
Lemma weather_2xx_not_json_shows_error :
  ok Samples.html_body = true
  ∧ ¬ (cantainer_display
         (weather (Fulfilled Samples.html_body) Samples.blank_weather_page) = "flex"
       ∧ fetching_display
           (weather (Fulfilled Samples.html_body) Samples.blank_weather_page) = "none").
Proof. split; [reflexivity|]. intros [H _]. vm_compute in H. discriminate. Qed.

Example weather_2xx_not_json_page :
  weather (Fulfilled Samples.html_body) Samples.blank_weather_page
  = {| userinput_value := "Lahore";
       city_innerHTML := "";
       citytemp_innerHTML := "";
       wind_innerHTML := "";
       des_innerHTML := "";
       cantainer_display := "none";
       fetching_display := "flex";
       fetching_innerHTML := "SyntaxError: Unexpected token '<' is not valid JSON";
       console := [VStr "Fetching Data..."; VStr "Error occure:"] |}.
Proof. reflexivity. Qed.

End WeatherFacts.

(** * Further properties of the scripts *)

(** ** The clock: widths, missing elements, other elements *)

Section ClockMore.
Import JS Clock.

Lemma small_sixty (x : Z) :
  0 <= x < 60 → ∃ n : nat, (n < 60)%nat ∧ x = Z.of_nat n.
Proof. intros Hx. exists (Z.to_nat x). lia. Qed.

(** Below 60 the two ways of padding used in the repository agree, and
    give two characters. *)
Lemma lead_zero_pad (x : Z) :
  0 <= x < 60 →
  to_string (lead_zero x) = padStart 2 "0" (number_to_string x)
  ∧ String.length (padStart 2 "0" (number_to_string x)) = 2%nat.
Proof.
  intros Hx. destruct (small_sixty x Hx) as (n & Hn & ->). clear Hx.
  do 60 (destruct n as [|n]; [vm_compute; split; reflexivity|]). lia.
Qed.

Lemma hour_text_length (a : Date) :
  0 <= getHours a < 24 → String.length (to_string (hours12 a)) = 2%nat.
Proof.
  destruct a as [y mo d h mi s]. unfold hours12, getHours. simpl hour.
  intros Hh. destruct (small_hour h Hh) as (n & Hn & ->). clear Hh.
  do 24 (destruct n as [|n]; [vm_compute; reflexivity|]). lia.
Qed.

(** X1: at every time of day (hours 0 to 23, minutes and seconds 0 to 59)
    the minutes and the seconds are rendered as their decimal text padded
    to two digits with a leading zero, and the hour, minute and second
    texts have two characters each, so that the clock keeps its width. *)
Theorem clock_fields_two_digits (a : Date) :
  0 <= getHours a < 24 → 0 <= getMinutes a < 60 → 0 <= getSeconds a < 60 →
  to_string (minutes2 a) = padStart 2 "0" (number_to_string (getMinutes a))
  ∧ to_string (seconds2 a) = padStart 2 "0" (number_to_string (getSeconds a))
  ∧ String.length (to_string (hours12 a)) = 2%nat
  ∧ String.length (to_string (minutes2 a)) = 2%nat
  ∧ String.length (to_string (seconds2 a)) = 2%nat.
Proof.
  intros Hh Hm Hs. unfold minutes2, seconds2.
  destruct (lead_zero_pad _ Hm) as [Em Lm], (lead_zero_pad _ Hs) as [Es Ls].
  rewrite Em, Es. repeat split; try done. by apply hour_text_length.
Qed.

Lemma clock_fields_two_digits_witness :
  to_string (minutes2 Samples.march_afternoon) = "05"
  ∧ to_string (seconds2 Samples.march_afternoon) = "09".
Proof.
  destruct (clock_fields_two_digits Samples.march_afternoon)
    as (Hm & Hs & _).
  - vm_compute. split; [discriminate | reflexivity].
  - vm_compute. split; [discriminate | reflexivity].
  - vm_compute. split; [discriminate | reflexivity].
  - split; [exact Hm | exact Hs].
Defined.

(** X2: on a page with fewer than four elements of class "time" the
    callback throws a [TypeError] at the first missing element, having
    written the texts of the elements that exist. *)
Theorem tick_missing_element (a : Date) (p : page) :
  (length p < 4)%nat →
  tick a p
  = Throw (TypeError_set "undefined" "innerHTML") (take (length p) (texts a)).
Proof.
  intros Hp.
  destruct p as [|e0 [|e1 [|e2 [|e3 rest]]]]; simpl in Hp; try lia; reflexivity.
Qed.

Lemma tick_missing_element_witness :
  tick Samples.march_afternoon [""; ""; ""]
  = Throw (TypeError_set "undefined" "innerHTML") ["01:"; "05:"; "09  "].
Proof.
  apply (tick_missing_element Samples.march_afternoon [""; ""; ""]).
  vm_compute. lia.
Defined.

(** X3: on a page with at least four elements of class "time" the
    callback replaces the content of the first four, whatever it was, and
    leaves the elements after them as they were. *)
Theorem tick_overwrites_first_four (a : Date) (p : page) :
  (4 <= length p)%nat →
  tick a p = Normal (texts a ++ drop 4 p)%list.
Proof.
  intros Hp.
  destruct p as [|e0 [|e1 [|e2 [|e3 rest]]]]; simpl in Hp; try lia; reflexivity.
Qed.

Lemma tick_overwrites_first_four_witness :
  tick Samples.march_afternoon ["a"; "b"; "c"; "d"; "e"]
  = Normal ["01:"; "05:"; "09  "; " PM"; "e"].
Proof.
  apply (tick_overwrites_first_four Samples.march_afternoon ["a"; "b"; "c"; "d"; "e"]).
  vm_compute. lia.
Defined.

End ClockMore.

(** ** The Student classes: life cycle *)

Section StudentMore.
Import JS Students.

Lemma world_eq (w1 w2 : world) :
  this w1 = this w2 → console w1 = console w2 → w1 = w2.
Proof. destruct w1, w2. simpl. by intros -> ->. Qed.

Lemma pad_length (x : Z) :
  0 <= x < 60 → String.length (padStart 2 "0" (number_to_string x)) = 2%nat.
Proof. intros Hx. by destruct (lead_zero_pad x Hx). Qed.

(** X4: [submit()] called at a time of day stores [hours], [minutes] and
    [seconds] as strings of two characters, and leaves [name], [program],
    [rnumber] and [nice] as they were. *)
Theorem submit_stamps_two_digits (now : Date) (w : world) :
  0 <= getHours now < 24 → 0 <= getMinutes now < 60 → 0 <= getSeconds now < 60 →
  (∃ hh mm ss,
      get (this (submit now w)) "hours" = VStr hh
      ∧ get (this (submit now w)) "minutes" = VStr mm
      ∧ get (this (submit now w)) "seconds" = VStr ss
      ∧ String.length hh = 2%nat ∧ String.length mm = 2%nat
      ∧ String.length ss = 2%nat)
  ∧ Forall (λ k, this (submit now w) !! k = this w !! k)
      ["name"; "program"; "rnumber"; "nice"].
Proof.
  intros Hh Hm Hs. split.
  - exists (padStart 2 "0" (number_to_string (getHours now))),
      (padStart 2 "0" (number_to_string (getMinutes now))),
      (padStart 2 "0" (number_to_string (getSeconds now))).
    unfold submit.
    repeat split; try (apply pad_length; lia).
    + rewrite !get_set_ne by done. apply get_set_eq.
    + rewrite !get_set_ne by done. apply get_set_eq.
    + rewrite !get_set_ne by done. apply get_set_eq.
  - unfold submit, set. simpl.
    repeat constructor; by rewrite !lookup_insert_ne.
Qed.

Lemma submit_stamps_two_digits_witness :
  ∃ hh mm ss,
    get (this (submit Samples.new_year_night (Students.rizwan []))) "hours" = VStr hh
    ∧ get (this (submit Samples.new_year_night (Students.rizwan []))) "minutes" = VStr mm
    ∧ get (this (submit Samples.new_year_night (Students.rizwan []))) "seconds" = VStr ss
    ∧ String.length hh = 2%nat ∧ String.length mm = 2%nat
    ∧ String.length ss = 2%nat.
Proof.
  apply (submit_stamps_two_digits Samples.new_year_night (Students.rizwan [])).
  - vm_compute. split; [discriminate | reflexivity].
  - vm_compute. split; [discriminate | reflexivity].
  - vm_compute. split; [discriminate | reflexivity].
Defined.

Lemma constructor_fields (name program : string) (out : list string) :
  get (this (constructor name program out)) "name" = VStr (toUpperCase name)
  ∧ get (this (constructor name program out)) "program" = VStr (toUpperCase program).
Proof.
  unfold constructor. rewrite this_log. split.
  - rewrite !get_set_ne by done. apply get_set_eq.
  - apply get_set_eq.
Qed.

(** How each call acts on [name] and on [program]. *)
Lemma identity_after_invoke (c : class) (m : call) (w w' : world) (k : string) :
  k = "name" ∨ k = "program" →
  invoke c m w = Normal w' →
  get (this w') k = if is_cancel m then VUndefined else get (this w) k.
Proof.
  intros Hk Hm. destruct m as [now | x | | r n]; simpl in Hm.
  - injection Hm as <-. unfold submit. destruct Hk as [-> | ->];
      by rewrite !get_set_ne.
  - injection Hm as <-. unfold cancel. destruct Hk as [-> | ->].
    + rewrite get_set_ne by done. apply get_set_eq.
    + apply get_set_eq.
  - injection Hm as <-. by rewrite this_info.
  - destruct c; [discriminate|]. injection Hm as <-. unfold add.
    destruct Hk as [-> | ->]; by rewrite !get_set_ne.
Qed.

Lemma identity_after_run (c : class) (ms : list call) (w w' : world) (k : string) :
  k = "name" ∨ k = "program" →
  run c ms w = Normal w' →
  get (this w') k = if existsb is_cancel ms then VUndefined else get (this w) k.
Proof.
  intros Hk. revert w. induction ms as [|m ms IH]; intros w Hrun; simpl in Hrun.
  - by injection Hrun as <-.
  - destruct (invoke c m w) as [w1|e w1] eqn:Hm; simpl in Hrun; [|discriminate].
    rewrite (IH _ Hrun), (identity_after_invoke _ _ _ _ _ Hk Hm). simpl.
    destruct (is_cancel m); simpl; [by destruct (existsb _ _)|done].
Qed.

(** X5: no method brings a cancelled student back: after [cancel()],
    whatever calls to [submit], [cancel], [info] and [add] follow, [name]
    and [program] are [undefined] and [info()] logs only
    "Student not exits!". *)
Theorem cancelled_stays_cancelled (c : class) (x : Date) (ms : list call)
    (w w' : world) :
  run c ms (cancel x w) = Normal w' →
  get (this w') "name" = VUndefined
  ∧ get (this w') "program" = VUndefined
  ∧ console (info c w') = (console w' ++ ["Student not exits!"])%list.
Proof.
  intros Hrun.
  assert (Hname : get (this w') "name" = VUndefined).
  { rewrite (identity_after_run c ms _ _ "name" (or_introl eq_refl) Hrun).
    destruct (existsb _ _); [done|]. apply name_after_cancel. }
  assert (Hprog : get (this w') "program" = VUndefined).
  { rewrite (identity_after_run c ms _ _ "program" (or_intror eq_refl) Hrun).
    destruct (existsb _ _); [done|]. unfold cancel. apply get_set_eq. }
  split; [done|]. split; [done|].
  destruct c; simpl; unfold Student_info, CS_Student_info; by rewrite Hname.
Qed.

Lemma cancelled_stays_cancelled_witness :
  console (info CS_Student
             (add (VNum 7) (VNum 8)
                (submit Samples.march_afternoon
                   (cancel Samples.new_year_night (Students.rizwan [])))))
  = (console (add (VNum 7) (VNum 8)
                (submit Samples.march_afternoon
                   (cancel Samples.new_year_night (Students.rizwan []))))
     ++ ["Student not exits!"])%list.
Proof.
  apply (cancelled_stays_cancelled CS_Student Samples.new_year_night
           [Submit Samples.march_afternoon; Add (VNum 7) (VNum 8)]
           (Students.rizwan [])).
  reflexivity.
Defined.

(** X6: on an object built by the constructor from [name] and [program],
    after any sequence of calls, [name] and [program] hold the upper-cased
    strings if [cancel] is not among the calls made, and [undefined] if it
    is. *)
Theorem identity_until_cancel (c : class) (name program : string)
    (out : list string) (ms : list call) (w : world) :
  run c ms (constructor name program out) = Normal w →
  get (this w) "name"
    = (if existsb is_cancel ms then VUndefined else VStr (toUpperCase name))
  ∧ get (this w) "program"
    = (if existsb is_cancel ms then VUndefined else VStr (toUpperCase program)).
Proof.
  intros Hrun.
  rewrite (identity_after_run c ms _ _ "name" (or_introl eq_refl) Hrun).
  rewrite (identity_after_run c ms _ _ "program" (or_intror eq_refl) Hrun).
  destruct (constructor_fields name program out) as [-> ->]. done.
Qed.

Lemma identity_until_cancel_witness :
  get (this (info CS_Student (submit Samples.march_afternoon (Students.rizwan []))))
    "name"
  = VStr "RIZWAN AHMED ".
Proof.
  apply (identity_until_cancel CS_Student "Rizwan Ahmed " "Inofrmation Tehcnology" []
           [Add (VNum 30) (VNum 5429332333552); Submit Samples.march_afternoon; Info]).
  reflexivity.
Defined.

(** X7: [info()] on a student that was never submitted prints the
    timestamp properties as they read when absent: the text
    "undefined:undefined:undefined on undefined" follows "Date: ". *)
Theorem info_before_submit (name program : string) (out : list string) :
  console (info Student (constructor name program out))
  = (out ++ [toUpperCase name +:+ " Your Form is in panding please submit it first";
             nl +:+ "Student Informations:";
             "Name: " +:+ toUpperCase name +:+ nl +:+ "Program: "
             +:+ toUpperCase program +:+ nl
             +:+ "Date: undefined:undefined:undefined on undefined"])%list.
Proof.
  simpl. unfold Student_info.
  destruct (constructor_fields name program out) as [Hn Hp].
  rewrite Hn. simpl loosely_undefined. cbv iota.
  rewrite !this_log, Hn, Hp.
  unfold get. rewrite !timestamp_after_constructor
    by (unfold timestamp_fields; repeat constructor).
  unfold constructor. simpl. rewrite <- !app_assoc. simpl.
  reflexivity.
Qed.

(** X8: [add] and [submit] act on different properties, so they can be
    called in either order; and of two calls of [add] the later one
    decides [rnumber] and [nice]. *)
Theorem add_commutes_with_submit (r n r' n' : value) (now : Date) (w : world) :
  add r n (submit now w) = submit now (add r n w)
  ∧ add r' n' (add r n w) = add r' n' w.
Proof.
  split.
  - apply world_eq.
    + unfold add, submit, set, log. simpl. apply map_eq. intros k.
      destruct (decide (k = "nice")) as [-> | ?]; [by simplify_map_eq|].
      destruct (decide (k = "rnumber")) as [-> | ?]; [by simplify_map_eq|].
      destruct (decide (k = "date")) as [-> | ?]; [by simplify_map_eq|].
      destruct (decide (k = "seconds")) as [-> | ?]; [by simplify_map_eq|].
      destruct (decide (k = "minutes")) as [-> | ?]; [by simplify_map_eq|].
      destruct (decide (k = "hours")) as [-> | ?]; by simplify_map_eq.
    + unfold add, submit. rewrite !console_set. unfold log. simpl.
      unfold get. simpl. by rewrite !lookup_insert_ne.
  - apply world_eq; [|done].
    unfold add, set. simpl. apply map_eq. intros k.
    destruct (decide (k = "nice")) as [-> | ?]; [by simplify_map_eq|].
    destruct (decide (k = "rnumber")) as [-> | ?]; by simplify_map_eq.
Qed.

(** X9: after [submit()] at the instant [now], [Student.info()] on a
    student whose name is defined prints the stamp of that call: the time
    of day padded to two digits and the date text [d/m/yyyy] with the month
    counted from 0. *)
Theorem info_prints_submit_stamp (now : Date) (w : world) :
  loosely_undefined (get (this w) "name") = false →
  last (console (info Student (submit now w)))
  = Some ("Name: " +:+ to_string (get (this w) "name")
          +:+ nl +:+ "Program: " +:+ to_string (get (this w) "program")
          +:+ nl +:+ "Date: "
          +:+ padStart 2 "0" (number_to_string (getHours now)) +:+ ":"
          +:+ padStart 2 "0" (number_to_string (getMinutes now)) +:+ ":"
          +:+ padStart 2 "0" (number_to_string (getSeconds now)) +:+ " on "
          +:+ (number_to_string (getDate now) +:+ "/"
               +:+ number_to_string (month now - 1) +:+ "/"
               +:+ number_to_string (getFullYear now))).
Proof.
  intros Hname. simpl. unfold Student_info.
  assert (Hn : get (this (submit now w)) "name" = get (this w) "name")
    by (unfold submit; by rewrite !get_set_ne).
  assert (Hp : get (this (submit now w)) "program" = get (this w) "program")
    by (unfold submit; by rewrite !get_set_ne).
  rewrite Hn, Hname. rewrite this_log, Hn, Hp.
  unfold log at 1. simpl console. rewrite last_snoc. do 2 f_equal.
  unfold get. by simplify_map_eq.
Qed.

Lemma info_prints_submit_stamp_witness :
  last (console (info Student (submit Samples.millennium_eve (Students.rizwan []))))
  = Some ("Name: RIZWAN AHMED " +:+ nl +:+ "Program: INOFRMATION TEHCNOLOGY"
          +:+ nl +:+ "Date: 23:59:59 on 31/11/1999").
Proof.
  apply (info_prints_submit_stamp Samples.millennium_eve (Students.rizwan [])).
  reflexivity.
Defined.

End StudentMore.

(** ** The callback loader: its console, several loads *)

Section CallbackMore.
Import JS CallbackLoader.

(** X10: for every URL, [func(src, success)] followed by the settlement
    of the load adds two lines to the console: "Script Loaded" if the
    script loaded, "Error" if it did not, and then the URL. *)
Theorem loader_reports_on_console (src : string) (b : browser (list string))
    (o : outcome) :
  state (settle (length (head b)) o (func src success b))
  = (state b ++ [match o with Loaded => "Script Loaded" | Failed => "Error" end;
                 src])%list.
Proof. rewrite settle_new_script. by destruct o. Qed.

Lemma settle_head {W} (i : nat) (o : outcome) (b : browser W) :
  head (settle i o b) = head b.
Proof. unfold settle. by destruct (head b !! i). Qed.

Lemma settle_state {W} (i : nat) (o : outcome) (b : browser W) (scrt : script W) :
  head b !! i = Some scrt →
  state (settle i o b)
  = match o with
    | Loaded => onload scrt (state b)
    | Failed => onerror scrt (state b)
    end.
Proof. intros Hi. unfold settle. by rewrite Hi. Qed.

Lemma func_keeps_scripts {W} (src : string) (load : value → string → W → W)
    (b : browser W) (i : nat) :
  (i < length (head b))%nat → head (func src load b) !! i = head b !! i.
Proof. intros Hi. unfold func. simpl. by rewrite lookup_app_l. Qed.

(** X11: two calls of [func] inject two scripts, also for one and the same
    URL; when the browser settles the two loads, in either order, each
    settlement invokes the callback with the URL and the flag of its own
    script. *)
Theorem two_loads_report_separately {W} (load : value → string → W → W)
    (s1 s2 : string) (b : browser W) (o1 o2 : outcome) :
  let n := length (head b) in
  let b2 := func s2 load (func s1 load b) in
  length (head b2) = S (S n)
  ∧ state (settle (S n) o2 (settle n o1 b2))
    = load (flag_of o2) s2 (load (flag_of o1) s1 (state b))
  ∧ state (settle n o1 (settle (S n) o2 b2))
    = load (flag_of o1) s1 (load (flag_of o2) s2 (state b)).
Proof.
  intros n b2.
  destruct (func_appends s1 load b) as (H1 & L1 & S1).
  destruct (func_appends s2 load (func s1 load b)) as (H2 & L2 & S2).
  rewrite L1 in H2. fold n in H1, H2, L1. fold b2 in H2, L2, S2.
  assert (H1' : head b2 !! n = head (func s1 load b) !! n)
    by (apply func_keeps_scripts; lia).
  rewrite H1 in H1'.
  split; [by rewrite L2, L1|]. split.
  - erewrite (settle_state (S n) o2 (settle n o1 b2))
      by (rewrite settle_head; exact H2).
    erewrite (settle_state n o1 b2) by exact H1'.
    simpl. by destruct o1, o2.
  - erewrite (settle_state n o1 (settle (S n) o2 b2))
      by (rewrite settle_head; exact H1').
    erewrite (settle_state (S n) o2 b2) by exact H2.
    simpl. by destruct o1, o2.
Qed.

End CallbackMore.

(** ** The promise chain: how it settles, what it logs *)

Section PromiseMore.
Import JS PromiseLoader.

(** X12: the promise [p] of the chain is rejected exactly when the three
    load attempts all fail, and then with the reason "Rejected"; it is
    fulfilled with [undefined] when the first or the second attempt loads,
    and with "resolve" when only the third does. *)
Theorem chain_settlement (env : nat → outcome) :
  ((run p env 0).2 = Rejected (VStr "Rejected")
   ↔ env 0%nat = Failed ∧ env 1%nat = Failed ∧ env 2%nat = Failed)
  ∧ ((run p env 0).2 = Fulfilled VUndefined
     ↔ env 0%nat = Loaded ∨ env 1%nat = Loaded)
  ∧ ((run p env 0).2 = Fulfilled (VStr "resolve")
     ↔ env 0%nat = Failed ∧ env 1%nat = Failed ∧ env 2%nat = Loaded).
Proof.
  destruct (env 0%nat) eqn:H0; [|destruct (env 1%nat) eqn:H1].
  - rewrite (run_p_first_loads env H0). simpl. intuition congruence.
  - rewrite (run_p_second_loads env H0 H1). simpl. intuition congruence.
  - rewrite (run_p_third_decides env H0 H1). simpl.
    destruct (env 2%nat); intuition congruence.
Qed.

Lemma chain_settlement_witness :
  (run p (λ _, Failed) 0).2 = Rejected (VStr "Rejected").
Proof.
  apply (proj2 (proj1 (chain_settlement (λ _, Failed)))).
  repeat split; reflexivity.
Defined.

(** X13: the chain logs one line for each of the first two attempts that
    settle, "...error which is  Rejected" for a failure and "...resolve
    which is  resolve" for a load; how the third attempt ends is never
    logged. *)
Theorem chain_logs (env : nat → outcome) :
  logs (run p env 0).1
  = match env 0%nat, env 1%nat with
    | Loaded, _ => ["this is value of resolve which is  resolve"]
    | Failed, Loaded => ["this is value of error which is  Rejected";
                         "this is value of resolve which is  resolve"]
    | Failed, Failed => ["this is value of error which is  Rejected";
                         "this is value of error which is  Rejected"]
    end
  ∧ (length (logs (run p env 0).1) <= 2)%nat.
Proof.
  destruct (env 0%nat) eqn:H0; [|destruct (env 1%nat) eqn:H1].
  - rewrite (run_p_first_loads env H0). simpl. split; [done|lia].
  - rewrite (run_p_second_loads env H0 H1). simpl. split; [done|lia].
  - rewrite (run_p_third_decides env H0 H1). simpl. split; [done|lia].
Qed.

End PromiseMore.

(** ** The weather widget: every settlement of the fetch *)

Section WeatherMore.
Import JS Weather.

Lemma weather_fetch_rejected (e : error) (pg : page) :
  weather (Rejected e) pg
  = set_fetching_innerHTML (error_to_string e)
      (set_cantainer_display "none"
         (set_fetching_display "flex"
            (log (VStr "Error occure:") (loading pg)))).
Proof. reflexivity. Qed.

(** X14: when the fetch itself fails (no response), the page ends with
    the error container visible and holding the text of the failure, the
    data container hidden, the four data elements as they were, and two
    lines more on the console. *)
Theorem weather_network_failure (e : error) (pg : page) :
  fetching_display (weather (Rejected e) pg) = "flex"
  ∧ fetching_innerHTML (weather (Rejected e) pg) = error_to_string e
  ∧ cantainer_display (weather (Rejected e) pg) = "none"
  ∧ city_innerHTML (weather (Rejected e) pg) = city_innerHTML pg
  ∧ citytemp_innerHTML (weather (Rejected e) pg) = citytemp_innerHTML pg
  ∧ wind_innerHTML (weather (Rejected e) pg) = wind_innerHTML pg
  ∧ des_innerHTML (weather (Rejected e) pg) = des_innerHTML pg
  ∧ console (weather (Rejected e) pg)
    = (console pg ++ [VStr "Fetching Data..."; VStr "Error occure:"])%list.
Proof.
  rewrite weather_fetch_rejected. simpl. repeat split.
  by rewrite <- app_assoc.
Qed.

(** The page [weather] leaves, by the kind of settlement. *)
Lemma weather_cases (f : fetched) (pg : page) :
  (carries_data f = true ∧
   ∃ r v, f = Fulfilled r ∧ ok r = true ∧ json r = Fulfilled v ∧ nullish v = false)
  ∨ (carries_data f = false ∧ null_body f = true ∧
     ∃ r v, f = Fulfilled r ∧ ok r = true ∧ json r = Fulfilled v ∧ nullish v = true)
  ∨ (carries_data f = false ∧ null_body f = false ∧
     ∃ e, weather f pg
          = set_fetching_innerHTML (error_to_string e)
              (set_cantainer_display "none"
                 (set_fetching_display "flex"
                    (log (VStr "Error occure:") (loading pg))))).
Proof.
  destruct f as [r | e]; [|right; right; by eauto using weather_fetch_rejected].
  unfold carries_data, null_body.
  destruct (ok r) eqn:Hok; simpl.
  - destruct (json r) as [v | e] eqn:Hj.
    + destruct (nullish v) eqn:Hv; simpl.
      * right; left. eauto 10.
      * left. eauto 10.
    + right; right. repeat split. eexists. by apply weather_json_rejected.
  - right; right. repeat split. eexists. rewrite weather_not_ok by done.
    by rewrite <- not_found_text.
Qed.

(** X15: however the fetch settles, the page ends with exactly one of the
    two containers visible: the data container when the response has a 2xx
    status and a body that parses to a value other than [null], the error
    container otherwise. *)
Theorem weather_one_view (f : fetched) (pg : page) :
  if carries_data f
  then cantainer_display (weather f pg) = "flex"
       ∧ fetching_display (weather f pg) = "none"
  else cantainer_display (weather f pg) = "none"
       ∧ fetching_display (weather f pg) = "flex".
Proof.
  destruct (weather_cases f pg)
    as [(-> & r & v & -> & Hok & Hj & Hv)
       | [(-> & _ & r & v & -> & Hok & Hj & Hv) | (-> & _ & e & ->)]].
  - by rewrite (weather_json_value r pg v Hok Hj Hv).
  - destruct (weather_json_nullish r pg v Hok Hj Hv) as (? & ? & _). done.
  - done.
Qed.

(** X16: when the page ends with the error container visible, the
    temperature, wind and description shown before are still in their
    elements; the city element too, unless the response was a 2xx one with
    the body [null], where the second handler has written the input into
    it before it threw. *)
Theorem weather_error_keeps_data (f : fetched) (pg : page) :
  carries_data f = false →
  citytemp_innerHTML (weather f pg) = citytemp_innerHTML pg
  ∧ wind_innerHTML (weather f pg) = wind_innerHTML pg
  ∧ des_innerHTML (weather f pg) = des_innerHTML pg
  ∧ city_innerHTML (weather f pg)
    = (if null_body f then userinput_value pg else city_innerHTML pg).
Proof.
  intros Hf.
  destruct (weather_cases f pg)
    as [(Hd & _) | [(_ & -> & r & v & -> & Hok & Hj & Hv) | (_ & -> & e & ->)]].
  - congruence.
  - unfold weather, catch, then_, on_response. simpl. rewrite Hok, Hj. simpl.
    by destruct v.
  - done.
Qed.

Lemma weather_error_keeps_data_witness :
  citytemp_innerHTML
    (weather (Fulfilled Samples.not_found)
       (weather (Fulfilled Samples.sunny) Samples.blank_weather_page))
  = "+30 C".
Proof.
  rewrite (proj1 (weather_error_keeps_data (Fulfilled Samples.not_found)
                    (weather (Fulfilled Samples.sunny) Samples.blank_weather_page)
                    eq_refl)).
  reflexivity.
Defined.

Lemma lookup_prop_missing (k : string) (props : list (string * value)) :
  Forall (λ kv, kv.1 ≠ k) props → lookup_prop k props = VUndefined.
Proof.
  induction 1 as [|[k' v] props Hk _ IH]; simpl; [done|].
  simpl in Hk. by rewrite (proj2 (String.eqb_neq k' k) Hk).
Qed.

(** X17: a 2xx response whose body is an object without one of the
    properties [temperature], [wind], [description] still gives the data
    view; the element of the missing property shows the text
    "undefined". *)
Theorem weather_missing_field (r : response) (pg : page)
    (props : list (string * value)) :
  ok r = true → json r = Fulfilled (VObject props) →
  cantainer_display (weather (Fulfilled r) pg) = "flex"
  ∧ (Forall (λ kv, kv.1 ≠ "temperature") props →
     citytemp_innerHTML (weather (Fulfilled r) pg) = "undefined")
  ∧ (Forall (λ kv, kv.1 ≠ "wind") props →
     wind_innerHTML (weather (Fulfilled r) pg) = "undefined")
  ∧ (Forall (λ kv, kv.1 ≠ "description") props →
     des_innerHTML (weather (Fulfilled r) pg) = "undefined").
Proof.
  intros Hok Hj. rewrite (weather_json_value r pg _ Hok Hj eq_refl). simpl.
  unfold prop_of. simpl.
  repeat split; intros Hk; by rewrite lookup_prop_missing.
Qed.

Lemma weather_missing_field_witness :
  wind_innerHTML
    (weather (Fulfilled {| status := 200;
                           json := Fulfilled (VObject [("temperature", VStr "+1 C")]) |})
       Samples.blank_weather_page)
  = "undefined".
Proof.
  apply (weather_missing_field _ Samples.blank_weather_page
           [("temperature", VStr "+1 C")]).
  - reflexivity.
  - reflexivity.
  - repeat constructor. discriminate.
Defined.

End WeatherMore.

(** ** The cache: entries, expiry, cleanup *)

Section CacheFacts.
Import JS WeatherCache.

(** X18: [get] just after [set]: until [CACHE_TTL] milliseconds have
    passed (the bound included) [get] returns the data stored and leaves
    the store as it is; later it returns [null] and removes the entry. *)
Theorem cache_get_after_set (now now' : Z) (key : string) (d : value) (s : store) :
  get now' key (set now key d s)
  = if now' - now >? CACHE_TTL then (VNull, delete key s)
    else (d, set now key d s).
Proof.
  unfold get, set. rewrite lookup_insert_eq. unfold expired. simpl.
  destruct (now' - now >? CACHE_TTL); [|done].
  by rewrite delete_insert_eq.
Qed.

(** X19: [get(key)] changes nothing but the entry of [key]; it removes
    that entry exactly when the entry has expired, and it returns [null]
    for a key that is absent. *)
Theorem cache_get_frame (now : Z) (key : string) (s : store) :
  (∀ k, k ≠ key → (get now key s).2 !! k = s !! k)
  ∧ (get now key s).2 !! key
    = match s !! key with
      | Some e => if expired now e then None else Some e
      | None => None
      end
  ∧ (s !! key = None → get now key s = (VNull, s)).
Proof.
  unfold get. destruct (s !! key) as [e|] eqn:Hk.
  - destruct (expired now e); simpl.
    + split; [intros k Hne; by rewrite lookup_delete_ne|].
      split; [by rewrite lookup_delete_eq|done].
    + split; [done|]. split; done.
  - simpl. split; [done|]. split; done.
Qed.

Lemma cache_get_frame_witness :
  (get 0 "a" (set 0 "b" VNull ∅)).2 !! "b"
  = Some {| timestamp := 0; data := VNull |}.
Proof.
  rewrite (proj1 (cache_get_frame 0 "a" (set 0 "b" VNull ∅)) "b").
  - reflexivity.
  - discriminate.
Defined.

Lemma cleanup_fold_lookup (now : Z) (acc0 m : store) (k : string) :
  map_fold (λ key e acc, if expired now e then delete key acc else acc) acc0 m !! k
  = match m !! k with
    | Some e => if expired now e then None else acc0 !! k
    | None => acc0 !! k
    end.
Proof.
  revert k.
  apply (map_fold_weak_ind
           (λ r (m : store), ∀ k, r !! k = match m !! k with
                                 | Some e => if expired now e then None else acc0 !! k
                                 | None => acc0 !! k
                                 end)).
  - intros k. by rewrite lookup_empty.
  - intros i x m' r Hi IH k.
    destruct (decide (k = i)) as [-> | Hne].
    + rewrite lookup_insert_eq. destruct (expired now x).
      * by rewrite lookup_delete_eq.
      * by rewrite IH, Hi.
    + rewrite lookup_insert_ne by done. rewrite <- IH.
      destruct (expired now x); [by rewrite lookup_delete_ne|done].
Qed.

(** What a key holds after [cleanup()]. *)
Lemma lookup_cleanup (now : Z) (s : store) (k : string) :
  cleanup now s !! k
  = match s !! k with
    | Some e => if expired now e then None else Some e
    | None => None
    end.
Proof.
  unfold cleanup. rewrite cleanup_fold_lookup.
  destruct (s !! k) as [e|] eqn:Hk; [|done].
  by destruct (expired now e).
Qed.

(** X20: [cleanup()] removes the entries that have expired and no other:
    afterwards a key holds an entry exactly when it held that entry before
    and the entry has not expired. *)
Theorem cleanup_removes_expired (now : Z) (s : store) (k : string) (e : entry) :
  cleanup now s !! k = Some e ↔ s !! k = Some e ∧ expired now e = false.
Proof.
  rewrite lookup_cleanup.
  destruct (s !! k) as [e'|]; [|split; [done | by intros [? _]]].
  destruct (expired now e') eqn:He; split.
  - done.
  - intros [[= ->] He']. congruence.
  - intros [= ->]. done.
  - by intros [-> _].
Qed.

Lemma cleanup_removes_expired_witness :
  cleanup 999999 (set 500000 "a" (VStr "rain") (set 10 "b" VNull ∅)) !! "a"
  = Some {| timestamp := 500000; data := VStr "rain" |}.
Proof.
  apply (proj2 (cleanup_removes_expired 999999
                  (set 500000 "a" (VStr "rain") (set 10 "b" VNull ∅)) "a"
                  {| timestamp := 500000; data := VStr "rain" |})).
  split; reflexivity.
Defined.

Lemma expired_later (now now' : Z) (e : entry) :
  now <= now' → expired now e = true → expired now' e = true.
Proof. unfold expired. intros Hle H. apply Z.gtb_lt in H. apply Z.gtb_lt. lia. Qed.

(** X21: as long as the clock does not go back, a [cleanup()] is not seen
    by [get]: a [get] after the cleanup returns what it would have
    returned without it. *)
Theorem cleanup_unseen_by_get (now now' : Z) (key : string) (s : store) :
  now <= now' →
  (get now' key (cleanup now s)).1 = (get now' key s).1.
Proof.
  intros Hle. unfold get. rewrite lookup_cleanup.
  destruct (s !! key) as [e|]; [|done].
  destruct (expired now e) eqn:He.
  - by rewrite (expired_later now now' e Hle He).
  - by destruct (expired now' e).
Qed.

Lemma cleanup_unseen_by_get_witness :
  (get 1000000 "a" (cleanup 999999 (set 500000 "a" (VStr "rain") ∅))).1
  = VStr "rain".
Proof.
  rewrite (cleanup_unseen_by_get 999999 1000000 "a" (set 500000 "a" (VStr "rain") ∅)).
  - reflexivity.
  - lia.
Defined.

(** X22: cleaning twice is cleaning once at the later time, as long as
    the clock does not go back. *)
Theorem cleanup_twice (now now' : Z) (s : store) :
  now <= now' → cleanup now' (cleanup now s) = cleanup now' s.
Proof.
  intros Hle. apply map_eq. intros k. rewrite !lookup_cleanup.
  destruct (s !! k) as [e|]; [|done].
  destruct (expired now e) eqn:He; [|done].
  by rewrite (expired_later now now' e Hle He).
Qed.

Lemma cleanup_twice_witness :
  cleanup 2000000 (cleanup 1000000 (set 500000 "a" VNull (set 10 "b" VNull ∅)))
  = cleanup 2000000 (set 500000 "a" VNull (set 10 "b" VNull ∅)).
Proof.
  apply (cleanup_twice 1000000 2000000). lia.
Defined.

End CacheFacts.

(** ** [throttle]: the calls let through *)

Section ThrottleFacts.
Import JS Throttle.

Lemma calls_recorded (delay : Z) (l : list (Z * Z)) (c : closure (list Z)) :
  Forall (λ ta, ta.1 = ta.2) l →
  ∃ acc, world (calls record_call delay l c).1 = (world c ++ acc)%list
         ∧ spaced delay (lastCall c) acc
         ∧ length (calls record_call delay l c).2 = length l
         ∧ (length acc <= length l)%nat.
Proof.
  intros Hl. revert c. induction Hl as [|[now args] l Hta _ IH]; intros c.
  - exists []. simpl. by rewrite app_nil_r.
  - simpl in Hta. subst args. simpl. unfold call.
    destruct (now - lastCall c <? delay) eqn:Hlt.
    + destruct (IH c) as (acc & Hw & Hs & Hlen & Hacc).
      destruct (calls record_call delay l c) as [c2 rs]. simpl in *.
      exists acc. rewrite Hlen. repeat split; try done. lia.
    + simpl.
      destruct (IH {| lastCall := now; world := (world c ++ [now])%list |})
        as (acc & Hw & Hs & Hlen & Hacc).
      destruct (calls record_call delay l _) as [c2 rs]. simpl in *.
      exists (now :: acc). rewrite Hw, <- app_assoc. simpl.
      apply Z.ltb_ge in Hlt. rewrite Hlen. repeat split; try done; lia.
Qed.

(** X23: of a series of calls of a throttled function, made at the times
    [times], the calls let through to [fn] are at least [delay]
    milliseconds apart, the first of them at least [delay] after time 0;
    every call returns, and no call is let through twice. *)
Theorem throttle_spaces_calls (delay : Z) (times : list Z) :
  spaced delay 0
    (world (calls record_call delay (map (λ t, (t, t)) times) (throttle [])).1)
  ∧ length (calls record_call delay (map (λ t, (t, t)) times) (throttle [])).2
    = length times
  ∧ (length (world (calls record_call delay (map (λ t, (t, t)) times) (throttle [])).1)
     <= length times)%nat.
Proof.
  destruct (calls_recorded delay (map (λ t, (t, t)) times) (throttle []))
    as (acc & Hw & Hs & Hlen & Hacc).
  { apply Forall_forall. intros [t a] Hin.
    apply list_elem_of_fmap in Hin as (t' & [= -> ->] & _). done. }
  rewrite Hw. simpl. rewrite length_map in Hlen, Hacc. done.
Qed.

(** A call within [delay] of the last one let through is dropped: [fn] is
    not invoked and the call returns [undefined]; any other call invokes
    [fn] once, returns its result and becomes the last one let through. *)
Lemma call_cases {W A} (fn : A → W → W * value) (delay now : Z) (args : A)
    (c : closure W) :
  (now - lastCall c < delay ∧ call fn delay now args c = (c, VUndefined))
  ∨ (delay <= now - lastCall c
     ∧ call fn delay now args c
       = ({| lastCall := now; world := (fn args (world c)).1 |},
          (fn args (world c)).2)).
Proof.
  unfold call. destruct (Z.ltb_spec (now - lastCall c) delay); [by left|].
  right. split; [done|]. by destruct (fn args (world c)).
Qed.

End ThrottleFacts.

(** ** [fetchWithRetry]: attempts, waits, result *)

Section RetryFacts.
Import JS WeatherApiClient.

(** The function unfolds as the source reads: with [retries > 0] a failed
    attempt waits and calls [fetchWithRetry(url, retries - 1)]; otherwise
    it rethrows. *)
Lemma fetchWithRetry_eq (url : string) (retries : Z) :
  fetchWithRetry url retries
  = Fetch url (λ f,
      match try_block f with
      | Fulfilled v => Ret (Fulfilled v)
      | Rejected error =>
          if retries >? 0 then
            Sleep (1000 * (MAX_RETRIES - retries + 1))
              (fetchWithRetry url (retries - 1))
          else Ret (Rejected error)
      end).
Proof.
  unfold fetchWithRetry. destruct retries as [|q|q]; try reflexivity.
  replace (Z.to_nat (Z.pos q)) with (S (Z.to_nat (Z.pos q - 1))) by lia.
  reflexivity.
Qed.

Lemma run_Fetch {A} (url : string) (k : fetched → prog A) (env : nat → fetched)
    (n : nat) :
  run (Fetch url k) env n
  = (Fetched url :: (run (k (env n)) env (S n)).1, (run (k (env n)) env (S n)).2).
Proof. simpl. by destruct (run (k (env n)) env (S n)). Qed.

Lemma run_Sleep {A} (ms : Z) (k : prog A) (env : nat → fetched) (n : nat) :
  run (Sleep ms k) env n = (Slept ms :: (run k env n).1, (run k env n).2).
Proof. simpl. by destruct (run k env n). Qed.

Lemma fetchWithRetry_go_eq (fuel : nat) (url : string) (retries : Z) :
  fetchWithRetry_go fuel url retries
  = Fetch url (λ f,
      match try_block f with
      | Fulfilled v => Ret (Fulfilled v)
      | Rejected error =>
          if retries >? 0 then
            match fuel with
            | S fuel' =>
                Sleep (1000 * (MAX_RETRIES - retries + 1))
                  (fetchWithRetry_go fuel' url (retries - 1))
            | O => Ret (Rejected error)
            end
          else Ret (Rejected error)
      end).
Proof. by destruct fuel. Qed.


Lemma run_retry (fuel : nat) (url : string) (env : nat → fetched) :
  ∀ (retries : Z) (n : nat),
    fuel = Z.to_nat retries →
    let m := failures_before env n fuel in
    fetches (run (fetchWithRetry_go fuel url retries) env n).1
      = replicate (S m) url
    ∧ sleeps (run (fetchWithRetry_go fuel url retries) env n).1
      = map (λ i : nat, 1000 * (MAX_RETRIES - retries + 1 + Z.of_nat i)) (seq 0 m)
    ∧ (run (fetchWithRetry_go fuel url retries) env n).2
      = try_block (env (n + m)%nat).
Proof.
  induction fuel as [|fuel IH]; intros retries n Hfuel;
    rewrite fetchWithRetry_go_eq, run_Fetch; simpl; unfold succeeds.
  - rewrite Nat.add_0_r.
    destruct (try_block (env n)) as [v|e]; simpl; [done|].
    destruct (retries >? 0); done.
  - destruct (try_block (env n)) as [v|e] eqn:Ht; simpl.
    + by rewrite Nat.add_0_r, Ht.
    + assert (Hpos : (retries >? 0) = true) by (apply Z.gtb_lt; lia).
      rewrite Hpos, run_Sleep. simpl.
      destruct (IH (retries - 1) (S n) ltac:(lia)) as (Hf & Hs & Hr).
      simpl in Hf, Hs, Hr. rewrite Hf, Hs, Hr.
      split; [done|]. split.
      * f_equal; [f_equal; lia|].
        rewrite <- seq_shift, map_map. apply map_ext. intros i. lia.
      * f_equal. f_equal. lia.
Qed.


(** X25: the call settles as its last attempt does: it returns the body
    of the first attempt that succeeds, if one of the [retries + 1]
    attempts allowed does, and otherwise throws the error of the last
    attempt, not of the first. *)
Theorem fetchWithRetry_result (url : string) (retries : Z) (env : nat → fetched) :
  let m := failures_before env 0 (Z.to_nat retries) in
  (run (fetchWithRetry url retries) env 0).2 = try_block (env m)
  ∧ (∀ i, (i < m)%nat → succeeds env i = false)
  ∧ ((m < Z.to_nat retries)%nat → succeeds env m = true).
Proof.
  intros m. unfold fetchWithRetry.
  destruct (run_retry (Z.to_nat retries) url env retries 0 eq_refl) as (_ & _ & Hr).
  split; [done|].
  unfold m. clear Hr m.
  assert (Hgen : ∀ fuel n,
    (∀ i, (i < failures_before env n fuel)%nat → succeeds env (n + i) = false)
    ∧ ((failures_before env n fuel < fuel)%nat →
       succeeds env (n + failures_before env n fuel) = true)).
  { induction fuel as [|fuel IH]; intros n; simpl.
    - split; intros; lia.
    - destruct (succeeds env n) eqn:Hs.
      + split; [intros; lia|]. intros _. by rewrite Nat.add_0_r.
      + destruct (IH (S n)) as [IH1 IH2]. split.
        * intros [|i] Hi; [by rewrite Nat.add_0_r|].
          replace (n + S i)%nat with (S n + i)%nat by lia. apply IH1. lia.
        * intros Hlt.
          replace (n + S (failures_before env (S n) fuel))%nat
            with (S n + failures_before env (S n) fuel)%nat by lia.
          apply IH2. lia. }
  destruct (Hgen (Z.to_nat retries) 0%nat) as [H1 H2]. simpl in H1, H2.
  split; [exact H1 | exact H2].
Qed.

Lemma fetchWithRetry_result_witness :
  succeeds Samples.third_time_lucky 2 = true.
Proof.
  apply (proj2 (proj2 (fetchWithRetry_result "u" MAX_RETRIES Samples.third_time_lucky))).
  vm_compute. lia.
Defined.

Example retry_all_fail :
  run (fetchWithRetry "u" MAX_RETRIES) (λ _, Fulfilled Samples.busy) 0
  = ([Fetched "u"; Slept 1000; Fetched "u"; Slept 2000; Fetched "u";
      Slept 3000; Fetched "u"],
     Rejected (Error "HTTP 503")).
Proof. reflexivity. Qed.

End RetryFacts.

(** ** [generateRandomId]: length and alphabet *)

Section IdFacts.
Import JS Utilities.

Lemma has_char_app (c : ascii) (a b : string) :
  Students.has_char c (a +:+ b) = Students.has_char c a || Students.has_char c b.
Proof.
  induction a as [|x a IH]; rewrite ?append_cons, ?append_empty_l; simpl; [done|].
  by rewrite IH, orb_assoc.
Qed.

Lemma length_app_string (a b : string) :
  String.length (a +:+ b) = (String.length a + String.length b)%nat.
Proof.
  induction a as [|x a IH]; rewrite ?append_cons, ?append_empty_l; simpl; [done|].
  by rewrite IH.
Qed.

Lemma charAt_chars (n : nat) :
  (n < 62)%nat →
  ∃ c, charAt n chars = String c "" ∧ Students.has_char c chars = true.
Proof.
  intros Hn.
  do 62 (destruct n as [|n]; [eexists; split; reflexivity|]). lia.
Qed.

Lemma loop_spec (rnd : nat → nat) (k i : nat) (result : string) :
  (∀ j, (rnd j < 62)%nat) →
  String.length (generateRandomId_loop k i rnd result)
    = (String.length result + k)%nat
  ∧ ∀ c, Students.has_char c (generateRandomId_loop k i rnd result) = true →
         Students.has_char c result = true ∨ Students.has_char c chars = true.
Proof.
  intros Hrnd. revert i result. induction k as [|k IH]; intros i result; simpl.
  - split; [lia|]. intros c Hc. by left.
  - destruct (IH (S i) (result +:+ charAt (rnd i) chars)) as [Hlen Hin].
    destruct (charAt_chars (rnd i) (Hrnd i)) as (x & Hx & Hxin).
    rewrite Hx in Hlen, Hin |- *. split.
    + rewrite Hlen, length_app_string. simpl. lia.
    + intros c Hc. destruct (Hin c Hc) as [Hr | Hr]; [|by right].
      rewrite has_char_app in Hr. apply orb_true_iff in Hr as [Hr | Hr]; [by left|].
      simpl in Hr. rewrite orb_false_r in Hr. apply Ascii.eqb_eq in Hr as ->.
      by right.
Qed.

(** X26: with the random indices in range (below 62, as
    [Math.floor(Math.random() * 62)] is), [generateRandomId(length)]
    returns a string of [length] characters, none for a negative
    [length], all of them letters or digits of [chars]. *)
Theorem generateRandomId_spec (length : Z) (rnd : nat → nat) :
  (∀ j, (rnd j < 62)%nat) →
  String.length (generateRandomId length rnd) = Z.to_nat length
  ∧ ∀ c, Students.has_char c (generateRandomId length rnd) = true →
         Students.has_char c chars = true.
Proof.
  intros Hrnd. unfold generateRandomId.
  destruct (loop_spec rnd (Z.to_nat length) 0 "" Hrnd) as [Hlen Hin].
  split; [by rewrite Hlen|].
  intros c Hc. by destruct (Hin c Hc).
Qed.

Lemma generateRandomId_spec_witness :
  String.length (generateRandomId 8 (λ j, (7 * j + 3) `mod` 62)%nat) = 8%nat.
Proof.
  apply (generateRandomId_spec 8 (λ j, (7 * j + 3) `mod` 62)%nat).
  intros j. apply Nat.mod_upper_bound. lia.
Defined.

End IdFacts.
